(** * GitKnowledgeRepository: a shallow embedding of
      knowledge_repo/repositories/gitrepository.py

    The Python class talks to three outside parties: the GitPython binding
    (branches, remotes, commit graph, diffs), the operating system (files,
    directories, a TCP probe) and the console (raw_input / print).  All three
    are gathered in one [World] value that every method threads explicitly;
    a method is a function [World -> Result A * World], where the result is
    either a returned Python value or a raised exception.  State changes made
    before an exception is raised stay in the world, as they do in Python. *)

From Stdlib Require Import ZArith Ascii String List Bool Lia.
From Stdlib Require Import DecimalString DecimalPos DecimalZ.
From stdpp Require Import base option list gmap sets strings.

Local Open Scope string_scope.
Local Open Scope list_scope.

(* ===================================================================== *)
(** ** Python string primitives used by the module *)
(* ===================================================================== *)

Module PyStr.

(** [s.split(c)] for a one-character separator: never the empty list. *)
Fixpoint split (c : ascii) (s : string) : list string :=
  match s with
  | EmptyString => [EmptyString]
  | String a s' =>
      if Ascii.eqb a c then EmptyString :: split c s'
      else match split c s' with
           | x :: xs => String a x :: xs
           | [] => [String a EmptyString]
           end
  end.

(** [sep.join(l)] *)
Definition join (sep : string) (l : list string) : string :=
  String.concat sep l.

(** [s.startswith(p)] *)
Definition startswith (s p : string) : bool := String.prefix p s.

(** [s.endswith(p)] *)
Definition endswith (s p : string) : bool :=
  let n := String.length s in
  let k := String.length p in
  (k <=? n)%nat && String.eqb (String.substring (n - k) k s) p.

(** [s.replace(c, '')] for a one-character pattern *)
Fixpoint remove_char (c : ascii) (s : string) : string :=
  match s with
  | EmptyString => EmptyString
  | String a s' =>
      if Ascii.eqb a c then remove_char c s' else String a (remove_char c s')
  end.

(** the characters [str.strip()] removes: space, \t, \n, \v, \f, \r *)
Definition is_space (a : ascii) : bool :=
  let n := nat_of_ascii a in
  (n =? 32)%nat || ((9 <=? n)%nat && (n <=? 13)%nat).

Fixpoint lstrip (s : string) : string :=
  match s with
  | EmptyString => EmptyString
  | String a s' => if is_space a then lstrip s' else s
  end.

Fixpoint rstrip (s : string) : string :=
  match s with
  | EmptyString => EmptyString
  | String a s' =>
      match rstrip s' with
      | EmptyString => if is_space a then EmptyString else String a EmptyString
      | r => String a r
      end
  end.

(** [s.strip()] *)
Definition strip (s : string) : string := rstrip (lstrip s).

(** [str(n)] for an int *)
Definition str_of_int (n : Z) : string :=
  NilZero.string_of_int (Z.to_int n).

(** [int(s)] in base 10: surrounding white space is dropped, one sign is
    accepted, then at least one decimal digit; [None] stands for the
    ValueError raised on anything else. *)
Definition int_of_str (s : string) : option Z :=
  match strip s with
  | String "+" r => option_map (fun d => Z.of_int (Decimal.Pos d)) (NilZero.uint_of_string r)
  | t => option_map Z.of_int (NilZero.int_of_string t)
  end.

End PyStr.

(* ===================================================================== *)
(** ** posixpath *)
(* ===================================================================== *)

Module PosixPath.

Definition slash : ascii := "/"%char.

(** [os.path.join(a, b)]: an absolute [b] discards [a]. *)
Definition join (a b : string) : string :=
  if PyStr.startswith b "/" then b
  else if String.eqb a "" || PyStr.endswith a "/" then a +:+ b
  else a +:+ "/" +:+ b.

(** [os.path.join(a, b, c)] *)
Definition join3 (a b c : string) : string := join (join a b) c.

(** the text before the last slash of [p], that slash included *)
Fixpoint head_upto_slash (p : string) : string :=
  match p with
  | EmptyString => EmptyString
  | String a p' =>
      let h := head_upto_slash p' in
      if String.eqb h "" then (if Ascii.eqb a slash then String a "" else "")
      else String a h
  end.

Fixpoint all_slashes (p : string) : bool :=
  match p with
  | EmptyString => true
  | String a p' => Ascii.eqb a slash && all_slashes p'
  end.

Fixpoint rstrip_slashes (p : string) : string :=
  match p with
  | EmptyString => EmptyString
  | String a p' =>
      match rstrip_slashes p' with
      | EmptyString => if Ascii.eqb a slash then EmptyString else String a EmptyString
      | r => String a r
      end
  end.

(** [os.path.dirname(p)] *)
Definition dirname (p : string) : string :=
  let head := head_upto_slash p in
  if negb (String.eqb head "") && negb (all_slashes head)
  then rstrip_slashes head else head.

(** the component stack of [normpath] *)
Fixpoint norm_comps (initial_slashes : bool) (comps new_comps : list string)
  : list string :=
  match comps with
  | [] => new_comps
  | comp :: rest =>
      if String.eqb comp "" || String.eqb comp "." then
        norm_comps initial_slashes rest new_comps
      else if negb (String.eqb comp "..")
              || (negb initial_slashes && Nat.eqb (length new_comps) 0)
              || (match last new_comps with
                  | Some l => String.eqb l ".."
                  | None => false
                  end)
      then norm_comps initial_slashes rest (new_comps ++ [comp])
      else norm_comps initial_slashes rest (removelast new_comps)
  end.

(** [os.path.normpath(p)] *)
Definition normpath (p : string) : string :=
  if String.eqb p "" then "." else
  let initial := PyStr.startswith p "/" in
  let two := initial && PyStr.startswith p "//"
             && negb (PyStr.startswith p "///") in
  let comps := norm_comps initial (PyStr.split slash p) [] in
  let body := PyStr.join "/" comps in
  let res := if initial then (if two then "//" else "/") +:+ body else body in
  if String.eqb res "" then "." else res.

(** [os.path.abspath(p)] in a process whose working directory is [cwd] *)
Definition abspath (cwd p : string) : string :=
  normpath (if PyStr.startswith p "/" then p else join cwd p).

End PosixPath.

(* ===================================================================== *)
(** ** Exceptions and results *)
(* ===================================================================== *)

(** The Python exception classes the module raises or lets through. *)
Inductive exn : Type :=
| ValueError (msg : string)
| RuntimeError (msg : string)
| AssertionError (msg : string)
| IOError (msg : string)
| OSError (msg : string)
| IndexError (msg : string)
| AttributeError (msg : string)
| GitCommandError (msg : string)
| BadName (rev : string)
| EOFError.

Inductive Result (A : Type) : Type :=
| Ret (a : A)
| Raise (e : exn).
Arguments Ret {A} a.
Arguments Raise {A} e.

(* ===================================================================== *)
(** ** The file system, as the [os], [shutil] and [open] calls see it *)
(* ===================================================================== *)

(** Regular files and directories are keyed by absolute, normalised paths;
    every call resolves its argument lexically against [cwd] (no symbolic
    links).  File contents are Python 2 byte strings: text mode on POSIX
    does not translate them. *)
Record FS : Type := mkFS {
  cwd : string;
  files : gmap string string;
  dirs : gset string;
}.

Module Os.

Definition resolve (fs : FS) (p : string) : string :=
  PosixPath.abspath (cwd fs) p.

(** [os.path.isdir(p)] *)
Definition isdir (fs : FS) (p : string) : bool :=
  negb (String.eqb p "") && bool_decide (resolve fs p ∈ dirs fs).

(** [os.path.isfile(p)] *)
Definition isfile (fs : FS) (p : string) : bool :=
  negb (String.eqb p "") && bool_decide (is_Some (files fs !! resolve fs p)).

(** [os.path.exists(p)] *)
Definition exists_ (fs : FS) (p : string) : bool := isdir fs p || isfile fs p.

(** the directories named on the way down to an absolute path *)
Fixpoint prefixes_from (acc : string) (comps : list string) : list string :=
  match comps with
  | [] => []
  | c :: rest =>
      let p := acc +:+ "/" +:+ c in p :: prefixes_from p rest
  end.

Definition ancestors (q : string) : list string :=
  "/" :: prefixes_from ""
           (List.filter (fun c => negb (String.eqb c ""))
                        (PyStr.split PosixPath.slash q)).

(** [os.makedirs(p)]: creates [p] and the missing directories above it;
    OSError when [p] exists already or a regular file is in the way. *)
Definition makedirs (fs : FS) (p : string) : Result unit * FS :=
  if String.eqb p "" then (Raise (OSError "No such file or directory"), fs) else
  let q := resolve fs p in
  if bool_decide (q ∈ dirs fs) || bool_decide (is_Some (files fs !! q))
  then (Raise (OSError "File exists"), fs)
  else if existsb (fun a => bool_decide (is_Some (files fs !! a))) (ancestors q)
  then (Raise (OSError "Not a directory"), fs)
  else (Ret tt,
        mkFS (cwd fs) (files fs) (dirs fs ∪ list_to_set (ancestors q) ∪ {[ q ]})).

(** [with open(p, 'w') as f: return f.write(data)]: IOError when [p] is a
    directory or its parent is not one; otherwise the file holds exactly
    [data] afterwards and the call returns None. *)
Definition write_file (fs : FS) (p data : string) : Result unit * FS :=
  if String.eqb p "" then (Raise (IOError "No such file or directory"), fs) else
  let q := resolve fs p in
  if bool_decide (q ∈ dirs fs) then (Raise (IOError "Is a directory"), fs)
  else if negb (bool_decide (PosixPath.dirname q ∈ dirs fs))
  then (Raise (IOError "No such file or directory"), fs)
  else (Ret tt, mkFS (cwd fs) (<[ q := data ]> (files fs)) (dirs fs)).

(** [with open(p) as f: return f.read()] *)
Definition read_file (fs : FS) (p : string) : Result string :=
  if String.eqb p "" then Raise (IOError "No such file or directory") else
  let q := resolve fs p in
  if bool_decide (q ∈ dirs fs) then Raise (IOError "Is a directory") else
  match files fs !! q with
  | Some data => Ret data
  | None => Raise (IOError "No such file or directory")
  end.

(** [q] itself or something below it *)
Definition within (q x : string) : bool :=
  String.eqb x q || PyStr.startswith x (q +:+ "/").

(** [shutil.rmtree(p)]: OSError unless [p] is a directory; otherwise the
    directory and everything below it is gone. *)
Definition rmtree (fs : FS) (p : string) : Result unit * FS :=
  if negb (isdir fs p) then (Raise (OSError "No such file or directory"), fs) else
  let q := resolve fs p in
  (Ret tt,
   mkFS (cwd fs)
        (filter (fun kv => within q (fst kv) = false) (files fs))
        (filter (fun d => within q d = false) (dirs fs))).

End Os.

(* ===================================================================== *)
(** ** The GitPython binding *)
(* ===================================================================== *)

Definition commit : Type := nat.

(** [git.Head]: a reference object, known by its name. *)
Record Head : Type := mkHead { name : string }.

(** A remote with the result of [git remote get-url] (None when the command
    fails) and its references; a reference's name carries the remote's
    prefix, as in ["origin/master"]. *)
Record Remote : Type := mkRemote {
  remote_name : string;
  remote_url : option string;
  refs : list (string * commit);
}.

(** What the binding can tell about the repository.  The commit graph is
    explicit; the content-level answers (merge base, changed paths, what a
    checkout does to the working tree) are recorded as the binding gives
    them. *)
Record GitRepo : Type := mkGit {
  branches : list (string * commit);      (* repo.branches, in listing order *)
  active_branch : string;                 (* repo.active_branch.name *)
  remotes : list Remote;                  (* repo.remotes *)
  parents : commit -> list commit;
  depth : nat;                            (* a bound on the length of parent chains *)
  merge_base : commit -> commit -> list commit;
  diff_a_paths : commit -> commit -> list string;  (* a_path of each entry of c.diff(base) *)
  worktree_after : commit -> FS -> option FS;      (* git checkout; None when git refuses *)
}.

(** [head != s] for a str [s].  A reference compares equal only to an object
    that has a path of its own; a str has none, so [==] is False and [!=] is
    True, whatever the name of the head and whatever the text. *)
Definition Head_ne_str (h : Head) (s : string) : bool := true.

Module Git.

Definition lookup_ref {A} (n : string) (l : list (string * A)) : option A :=
  snd <$> List.find (fun r => String.eqb (fst r) n) l.

Definition branch_names (g : GitRepo) : list string := fst <$> branches g.

(** every commit reachable from [c] *)
Fixpoint reachable (par : commit -> list commit) (fuel : nat) (c : commit)
  : list commit :=
  c :: match fuel with
       | O => []
       | S f => flat_map (reachable par f) (par c)
       end.

Definition head_commit (g : GitRepo) : Result commit :=
  match lookup_ref (active_branch g) (branches g) with
  | Some c => Ret c
  | None => Raise (ValueError ("Reference at 'refs/heads/" +:+ active_branch g
                                 +:+ "' does not exist"))
  end.

(** rev-parse of a reference name: the empty name is HEAD, local heads
    come before remote references. *)
Definition rev_parse (g : GitRepo) (rev : string) : Result commit :=
  if String.eqb rev "" then head_commit g else
  match lookup_ref rev (branches g) with
  | Some c => Ret c
  | None =>
      match lookup_ref rev (flat_map refs (remotes g)) with
      | Some c => Ret c
      | None => Raise (BadName rev)
      end
  end.

(** [repo.commit(rev)] *)
Definition commit_of (g : GitRepo) (rev : option string) : Result commit :=
  match rev with
  | None => head_commit g
  | Some r => rev_parse g r
  end.

(** [repo.iter_commits('a..b')]: reachable from [b], not from [a] *)
Definition iter_commits (g : GitRepo) (a b : string) : Result (list commit) :=
  match rev_parse g a, rev_parse g b with
  | Ret ca, Ret cb =>
      let excluded := reachable (parents g) (depth g) ca in
      Ret (remove_dups
             (List.filter (fun c => negb (bool_decide (c ∈ excluded)))
                          (reachable (parents g) (depth g) cb)))
  | Raise e, _ => Raise (GitCommandError "bad revision")
  | _, Raise e => Raise (GitCommandError "bad revision")
  end.

Definition newline : string := String "010"%char EmptyString.

(** the text [git branch --no-merged base] prints, final newline dropped *)
Definition branch_no_merged (g : GitRepo) (base : string) : Result string :=
  match lookup_ref base (branches g) with
  | None => Raise (GitCommandError ("malformed object name " +:+ base))
  | Some cb =>
      let merged := reachable (parents g) (depth g) cb in
      let unmerged :=
        List.filter (fun b => negb (bool_decide (snd b ∈ merged))) (branches g) in
      Ret (PyStr.join newline
             ((fun b => (if String.eqb (fst b) (active_branch g)
                         then "* " else "  ") +:+ fst b) <$> unmerged))
  end.

(** [repo.remote()]: the remote called origin *)
Definition remote (g : GitRepo) : Result Remote :=
  match List.find (fun r => String.eqb (remote_name r) "origin") (remotes g) with
  | Some r => Ret r
  | None => Raise (ValueError "Remote named 'origin' didn't exist")
  end.

(** [n in remote.refs] and [remote.refs[n]]: the lookup goes by the
    prefixed name *)
Definition remote_ref (r : Remote) (n : string) : option (string * commit) :=
  List.find (fun rf => String.eqb (fst rf) (remote_name r +:+ "/" +:+ n)) (refs r).

(** the reference [n] put on the commit [c]: rewritten where it is listed,
    added at the end otherwise *)
Definition set_ref (n : string) (c : commit) (l : list (string * commit))
  : list (string * commit) :=
  if bool_decide (n ∈ fst <$> l)
  then (fun b => if String.eqb (fst b) n then (n, c) else b) <$> l
  else l ++ [(n, c)].

(** [repo.create_head(n, c, force=True)]: the binding writes the reference
    itself, so with [force] a branch that exists is moved to [c], the branch
    checked out included; the work tree is not touched. *)
Definition create_head (g : GitRepo) (n : string) (c : commit) : Result Head * GitRepo :=
  (Ret (mkHead n),
   mkGit (set_ref n c (branches g)) (active_branch g) (remotes g) (parents g)
         (depth g) (merge_base g) (diff_a_paths g) (worktree_after g)).

(** the remotes once origin has taken a push of [branch] at [c]: the
    remote-tracking reference [origin/<branch>] is on [c] *)
Fixpoint track (rs : list Remote) (branch : string) (c : commit) : list Remote :=
  match rs with
  | [] => []
  | r :: rest =>
      if String.eqb (remote_name r) "origin"
      then mkRemote (remote_name r) (remote_url r)
                    (set_ref (remote_name r +:+ "/" +:+ branch) c (refs r)) :: rest
      else r :: track rest branch c
  end.

(** the repository after origin has taken a push of the local branch
    [branch]; a name that is no local branch sends nothing *)
Definition push_taken (g : GitRepo) (branch : string) : GitRepo :=
  match lookup_ref branch (branches g) with
  | Some c =>
      mkGit (branches g) (active_branch g) (track (remotes g) branch c) (parents g)
            (depth g) (merge_base g) (diff_a_paths g) (worktree_after g)
  | None => g
  end.

(** [head.checkout()] *)
Definition checkout (g : GitRepo) (fs : FS) (h : Head) : Result unit * (GitRepo * FS) :=
  match lookup_ref (name h) (branches g) with
  | None => (Raise (GitCommandError ("pathspec '" +:+ name h +:+ "' did not match")), (g, fs))
  | Some c =>
      match worktree_after g c fs with
      | None => (Raise (GitCommandError "checkout failed"), (g, fs))
      | Some fs' =>
          (Ret tt,
           (mkGit (branches g) (name h) (remotes g) (parents g) (depth g)
                  (merge_base g) (diff_a_paths g) (worktree_after g), fs'))
      end
  end.

End Git.

(* ===================================================================== *)
(** ** The world a repository object lives in *)
(* ===================================================================== *)

(** Modelled from the spec: the PostStatus enumeration of the base class
    KnowledgeRepository, which is not part of this module; the three
    lifecycle states the spec names. *)
Inductive PostStatus : Type := DRAFT | SUBMITTED | PUBLISHED.

(** How a push ends.  The remote takes it; or the remote refuses it (a
    non-fast-forward without force, a hook), which the binding reports in
    the list that [push] returns, without raising; or the call raises. *)
Inductive PushOutcome : Type :=
| Taken
| Refused
| PushFails (e : exn).

Record World : Type := mkWorld {
  self_path : string;                  (* self.path *)
  self_git : GitRepo;                  (* self.git *)
  self_dir : list string;              (* what self.dir() yields (base class) *)
  _dir_cache : option (list string);   (* self._dir_cache, None until first set *)
  fs : FS;
  probe : string -> bool;              (* does host:22 accept within the timeout *)
  stdin : list string;                 (* the lines raw_input will read *)
  stdout : list string;                (* prompts and printed lines, oldest first *)
  pushed : list (string * bool);       (* pushes sent to origin: refspec, force *)
  push_outcome : string -> bool -> PushOutcome;  (* how such a push ends *)
}.

Definition set_git (g : GitRepo) (w : World) : World :=
  mkWorld (self_path w) g (self_dir w) (_dir_cache w) (fs w) (probe w)
          (stdin w) (stdout w) (pushed w) (push_outcome w).
Definition set_fs (f : FS) (w : World) : World :=
  mkWorld (self_path w) (self_git w) (self_dir w) (_dir_cache w) f (probe w)
          (stdin w) (stdout w) (pushed w) (push_outcome w).
Definition set_dir_cache (c : option (list string)) (w : World) : World :=
  mkWorld (self_path w) (self_git w) (self_dir w) c (fs w) (probe w)
          (stdin w) (stdout w) (pushed w) (push_outcome w).
Definition set_stdin (i : list string) (w : World) : World :=
  mkWorld (self_path w) (self_git w) (self_dir w) (_dir_cache w) (fs w) (probe w)
          i (stdout w) (pushed w) (push_outcome w).
Definition set_stdout (o : list string) (w : World) : World :=
  mkWorld (self_path w) (self_git w) (self_dir w) (_dir_cache w) (fs w) (probe w)
          (stdin w) o (pushed w) (push_outcome w).
Definition set_pushed (l : list (string * bool)) (w : World) : World :=
  mkWorld (self_path w) (self_git w) (self_dir w) (_dir_cache w) (fs w) (probe w)
          (stdin w) (stdout w) l (push_outcome w).

(** A method: runs in a world, returns or raises, leaves a world. *)
Definition M (A : Type) : Type := World -> Result A * World.

Definition ret {A} (a : A) : M A := fun w => (Ret a, w).
Definition raise {A} (e : exn) : M A := fun w => (Raise e, w).
Definition bind {A B} (m : M A) (k : A -> M B) : M B :=
  fun w => match m w with
           | (Ret a, w') => k a w'
           | (Raise e, w') => (Raise e, w')
           end.
(** [try: m  except: h] *)
Definition try_except {A} (m : M A) (h : exn -> M A) : M A :=
  fun w => match m w with
           | (Ret a, w') => (Ret a, w')
           | (Raise e, w') => h e w'
           end.
Definition ask {A} (f : World -> A) : M A := fun w => (Ret (f w), w).
Definition ask_result {A} (f : World -> Result A) : M A := fun w => (f w, w).
Definition modify (f : World -> World) : M unit := fun w => (Ret tt, f w).

Declare Scope py_scope.
Delimit Scope py_scope with py.
Notation "x <- m ;; k" := (bind m (fun x => k))
  (at level 100, m at next level, right associativity) : py_scope.
Notation "m ;;; k" := (bind m (fun _ => k))
  (at level 100, right associativity) : py_scope.
Local Open Scope py_scope.

(** [for x in l: body(x)], collecting what each round returns *)
Fixpoint for_each {A B} (body : A -> M B) (l : list A) : M (list B) :=
  match l with
  | [] => ret []
  | x :: rest => y <- body x ;; ys <- for_each body rest ;; ret (y :: ys)
  end.

(** [out = []; for x in l: if test(x): out.append(x)] *)
Fixpoint for_keep {A} (test : A -> M bool) (l : list A) : M (list A) :=
  match l with
  | [] => ret []
  | x :: rest =>
      keep <- test x ;; ys <- for_keep test rest ;;
      ret (if keep : bool then x :: ys else ys)
  end.

(** [raw_input(prompt)]: the prompt goes out, one line comes in; EOFError
    at the end of input. *)
Definition raw_input (prompt : string) : M string :=
  fun w =>
    let w1 := set_stdout (stdout w ++ [prompt]) w in
    match stdin w with
    | [] => (Raise EOFError, w1)
    | line :: rest => (Ret line, set_stdin rest w1)
    end.

(** [print(s)] *)
Definition print (s : string) : M unit :=
  modify (fun w => set_stdout (stdout w ++ [s]) w).

(** [l[i]] with Python's negative indices *)
Definition py_index {A} (l : list A) (i : Z) : Result A :=
  let n := Z.of_nat (length l) in
  let j := if (i <? 0)%Z then (i + n)%Z else i in
  if ((0 <=? j)%Z && (j <? n)%Z)%bool then
    match l !! Z.to_nat j with
    | Some x => Ret x
    | None => Raise (IndexError "list index out of range")
    end
  else Raise (IndexError "list index out of range").

(** [a or b] for an optional string [a]: None and the empty string are
    both false *)
Definition py_or (a : option string) (b : string) : string :=
  match a with
  | Some x => if String.eqb x "" then b else x
  | None => b
  end.

(** the largest Python 2 [int]; beyond it [int(s)] gives a [long] *)
Definition sys_maxint : Z := (2 ^ 63 - 1)%Z.

(** [while <no valid answer>: response = raw_input(prompt)]: reads lines
    until one is accepted; EOFError when the input runs out first. *)
Fixpoint prompt_until {A} (accept : string -> option A) (lines : list string)
  : Result A * (list string * nat) :=
  match lines with
  | [] => (Raise EOFError, ([], 1))
  | line :: rest =>
      match accept line with
      | Some a => (Ret a, (rest, 1))
      | None => let '(r, (rest', k)) := prompt_until accept rest in (r, (rest', S k))
      end
  end.

Definition raw_input_until {A} (prompt : string) (accept : string -> option A) : M A :=
  fun w =>
    let '(r, (rest, k)) := prompt_until accept (stdin w) in
    (r, set_stdin rest (set_stdout (stdout w ++ repeat prompt k) w)).

(* ===================================================================== *)
(** ** class GitKnowledgeRepository *)
(* ===================================================================== *)

(** Logging calls are left out: they change nothing a caller can see. *)

(** What the calls in the try block of [__repo_init] do to the disk, in
    order: Repo.init(path, mkdir=True), create_submodule, the two
    shutil.copy calls, index.add, index.commit, sm.update. *)
Record Bootstrap : Type := mkBootstrap {
  Repo_init : string -> FS -> Result unit * FS;
  create_submodule : string -> FS -> Result unit * FS;
  copy_config : string -> FS -> Result unit * FS;
  copy_readme : string -> FS -> Result unit * FS;
  index_add : string -> FS -> Result unit * FS;
  index_commit : string -> FS -> Result unit * FS;
  sm_update : string -> FS -> Result unit * FS;
}.

Definition on_fs (step : FS -> Result unit * FS) : M unit :=
  fun w => let '(r, f) := step (fs w) in (r, set_fs f w).

(** the body of the try block *)
Definition __repo_init_body (env : Bootstrap) (path : string) : M unit :=
  on_fs (Repo_init env path) ;;;
  on_fs (create_submodule env path) ;;;
  on_fs (copy_config env path) ;;;
  on_fs (copy_readme env path) ;;;
  on_fs (index_add env path) ;;;
  on_fs (index_commit env path) ;;;
  on_fs (sm_update env path).

Definition __repo_init (env : Bootstrap) (path : string) : M unit :=
  try_except (__repo_init_body env path)
    (fun e => on_fs (fun f => Os.rmtree f path) ;;; raise e).

(** property [git_local_branches] *)
Definition git_local_branches : M (list string) :=
  out <- ask_result (fun w => Git.branch_no_merged (self_git w) "master") ;;
  ret ((fun branch => PyStr.strip (PyStr.remove_char "*" branch))
         <$> PyStr.split "010"%char out).

(** the index at which the for loop of [__get_path_from_ref] breaks *)
Fixpoint first_kp (refs : list string) : option nat :=
  match refs with
  | [] => None
  | ref :: rest =>
      if PyStr.endswith ref ".kp" then Some O else S <$> first_kp rest
  end.

Definition __get_path_from_ref (ref : string) : option string :=
  let refs := PyStr.split "/" ref in
  match first_kp refs with
  | None => None
  | Some i => Some (PyStr.join "/" (take (i + 1) refs))
  end.

(** [git_diff(ref, ref_base)], as the list of the a_path of its entries *)
Definition git_diff (ref ref_base : option string) : M (list string) :=
  commit <- ask_result (fun w => Git.commit_of (self_git w) ref) ;;
  base <- ask_result (fun w =>
            Git.commit_of (self_git w) (Some (py_or ref_base "master"))) ;;
  ref0 <- ask_result (fun w => py_index (merge_base (self_git w) base commit) 0) ;;
  ask (fun w => diff_a_paths (self_git w) commit ref0).

(** [git_local_posts(branches, as_dict=False)]; the result is built from a
    set, so only membership in it means anything. *)
Definition git_local_posts (branches : option (list string)) : M (list string) :=
  branches <- match branches with
              | None => git_local_branches
              | Some bs => ret bs
              end ;;
  posts <- for_each (fun branch =>
                       diffs <- git_diff (Some branch) None ;;
                       ret (omap __get_path_from_ref diffs)) branches ;;
  ret (remove_dups (concat posts)).

(** the argument of [git_branch]: a Head, None, or a name *)
Inductive branch_arg : Type :=
| BHead (h : Head)
| BNone
| BName (s : string).

Definition git_branch (branch : branch_arg) : M Head :=
  match branch with
  | BHead h => ret h
  | BNone => ask (fun w => mkHead (active_branch (self_git w)))
  | BName b =>
      names <- ask (fun w => Git.branch_names (self_git w)) ;;
      if bool_decide (b ∈ names) then ret (mkHead b)
      else raise (ValueError ("Specified branch `" +:+ b +:+ "` does not exist."))
  end.

(** the answer the selection loop of [git_branch_for_post] accepts *)
Definition accept_int (response : string) : option Z :=
  match PyStr.int_of_str response with
  | Some n => if ((- sys_maxint - 1 <=? n)%Z && (n <=? sys_maxint)%Z)%bool
              then Some n else None
  | None => None
  end.

(** the loop of [git_branch_for_post] that gathers [branches]: the unmerged
    branches whose changed posts include [path], in listing order *)
Definition branches_with_post (path : string) : M (list string) :=
  local <- git_local_branches ;;
  for_keep (fun branch =>
              posts <- git_local_posts (Some [branch]) ;;
              ret (bool_decide (path ∈ posts))) local.

Definition git_branch_for_post (path : option string) (interactive : bool)
  : M (option Head) :=
  match path with
  | None => ret None
  | Some path =>
      local <- git_local_branches ;;
      if bool_decide (path ∈ local)
      then (h <- git_branch (BName path) ;; ret (Some h)) else
      branches <- branches_with_post path ;;
      match branches with
      | [] =>
          published <- ask self_dir ;;
          if bool_decide (path ∈ published)
          then (h <- git_branch (BName "master") ;; ret (Some h)) else ret None
      | [b] => h <- git_branch (BName b) ;; ret (Some h)
      | _ =>
          response <-
            (if interactive then
               print ("There are multiple branches for post '" +:+ path +:+ "'.") ;;;
               for_each (fun ib => print (PyStr.str_of_int (Z.of_nat (fst ib))
                                            +:+ ". " +:+ snd ib))
                        (imap pair branches) ;;;
               raw_input_until "Please select the branch you would like to use: "
                               accept_int
             else ret 0%Z) ;;
          b <- ask_result (fun _ => py_index branches response) ;;
          h <- git_branch (BName b) ;; ret (Some h)
      end
  end.

Definition Head_checkout (h : Head) : M unit :=
  fun w => let '(r, (g, f)) := Git.checkout (self_git w) (fs w) h in
           (r, set_fs f (set_git g w)).

Definition git_create_head (n : string) (c : commit) : M Head :=
  fun w => let '(r, g) := Git.create_head (self_git w) n c in (r, set_git g w).

(** the answer the loop of [git_checkout] accepts: 'y' or 'n' *)
Definition accept_yn (response : string) : option bool :=
  if String.eqb response "y" then Some true
  else if String.eqb response "n" then Some false
  else None.

Definition git_checkout (branch : string) (soft reset create : bool) : M Head :=
  if negb create then
    branch_obj <- git_branch (BName branch) ;;
    Head_checkout branch_obj ;;;
    ret branch_obj
  else
    active <- ask (fun w => active_branch (self_git w)) ;;
    branch <-
      (if soft && negb (bool_decide (active ∈ ["master"; branch]))
          && negb (PyStr.endswith active ".kp")
       then
         yes <- raw_input_until
                  ("It looks like you have checked out the `" +:+ active
                   +:+ "` branch, whereas we were expecting to use `" +:+ branch
                   +:+ "`. Do you want to use your current branch instead? (y/n) ")
                  accept_yn ;;
         ret (if yes : bool then active else branch)
       else ret branch) ;;
    names <- ask (fun w => Git.branch_names (self_git w)) ;;
    branch_obj <-
      (if reset || negb (bool_decide (branch ∈ names)) then
         nremotes <- ask (fun w => length (remotes (self_git w))) ;;
         ref_head <-
           (if (0 <? nremotes)%nat then
              r <- ask_result (fun w => Git.remote (self_git w)) ;;
              ret (List.find (fun ref => String.eqb (fst ref) branch) (refs r))
            else ret None) ;;
         target <-
           match ref_head with
           | Some ref => ret (snd ref)
           | None =>
               if (0 <? nremotes)%nat then
                 r <- ask_result (fun w => Git.remote (self_git w)) ;;
                 match Git.remote_ref r "master" with
                 | Some ref => ret (snd ref)
                 | None => raise (AttributeError "master")
                 end
               else
                 bs <- ask (fun w => branches (self_git w)) ;;
                 match Git.lookup_ref "master" bs with
                 | Some c => ret c
                 | None => raise (AttributeError "master")
                 end
           end ;;
         git_create_head branch target
       else git_branch (BName branch)) ;;
    Head_checkout branch_obj ;;;
    ret branch_obj.

(** [_add_prepare(kp, path, update, branch, squash, message)]; [kp] and
    [message] are not used by the method. *)
Definition _add_prepare (path : string) (update : bool) (branch : option string)
    (squash : bool) : M unit :=
  target <- ask (fun w => PosixPath.abspath (cwd (fs w))
                            (PosixPath.join (self_path w) path)) ;;
  let branch := py_or branch path in
  branch_obj <- git_checkout branch true squash true ;;
  there <- ask (fun w => Os.exists_ (fs w) target) ;;
  if update || negb there then ret tt
  else raise (AssertionError
                ("A knowledge post already exists at '" +:+ path
                 +:+ "'! If you wanted to update it, please pass the '--update' flag.")).

(** property [__remote_uri] *)
Definition __remote_uri : M (option string) :=
  r <- ask_result (fun w => Git.remote (self_git w)) ;;
  ret (remote_url r).

(** the text before the first [stop], and what follows it; None when a
    newline or the end comes first *)
Fixpoint cut_at (stop : ascii) (s : string) : option (string * string) :=
  match s with
  | EmptyString => None
  | String a s' =>
      if Ascii.eqb a stop then Some (EmptyString, s')
      else if Ascii.eqb a "010"%char then None
      else match cut_at stop s' with
           | Some (before, after) => Some (String a before, after)
           | None => None
           end
  end.

(** group 1 of [re.match('.*?@(.*?):\.*?', uri)] *)
Definition match_host (uri : string) : option string :=
  match cut_at "@" uri with
  | Some (_, rest) => fst <$> cut_at ":" rest
  | None => None
  end.

(** property [__remote_host] *)
Definition __remote_host : M (option string) :=
  uri <- __remote_uri ;;
  match uri with
  | Some u =>
      if String.eqb u "" then ret None else
      uri2 <- __remote_uri ;;
      ret (match uri2 with Some u2 => match_host u2 | None => None end)
  | None => ret None
  end.

(** property [__remote_available] *)
Definition __remote_available : M bool :=
  host <- __remote_host ;;
  match host with
  | Some h => if String.eqb h "" then ret true else ask (fun w => probe w h)
  | None => ret true
  end.

(** [repo.remote().push(branch, force=force)]: the push is sent; when
    origin takes it the remote-tracking reference follows, when origin
    refuses it nothing moves and the call returns all the same. *)
Definition remote_push (branch : string) (force : bool) : M unit :=
  r <- ask_result (fun w => Git.remote (self_git w)) ;;
  modify (fun w => set_pushed (pushed w ++ [(branch, force)]) w) ;;;
  outcome <- ask (fun w => push_outcome w branch force) ;;
  match outcome with
  | Taken => modify (fun w => set_git (Git.push_taken (self_git w) branch) w)
  | Refused => ret tt
  | PushFails e => raise e
  end.

Definition _submit (path branch : option string) (force : bool) : M unit :=
  nremotes <- ask (fun w => length (remotes (self_git w))) ;;
  if (nremotes =? 0)%nat then
    raise (RuntimeError
             "No remote repositories exist into which this branch can be submitted.")
  else
  match branch, path with
  | None, None =>
      raise (ValueError
               "To submit a knowledge post, a path to the post and/or a git branch must be specified.")
  | _, _ =>
      branch <- match branch with
                | None => h <- git_branch_for_post path false ;; ret (name <$> h)
                | Some b => ret (Some b)
                end ;;
      match branch with
      | None =>
          raise (ValueError
                   ("It does not appear that you have any drafts in progress for '"
                    +:+ default "None" path +:+ "'."))
      | Some b =>
          available <- __remote_available ;;
          if negb available then
            uri <- __remote_uri ;;
            raise (RuntimeError
                     ("Cannot connect to remote repository " +:+ default "None" uri
                      +:+ ". Please check your connection, and then try again."))
          else remote_push b force
      end
  end.

(** [_kp_exists(path)]: [or] evaluates its right operand only when the left
    one is false. *)
Definition _kp_exists (path : string) : M bool :=
  there <- ask (fun w => Os.isdir (fs w) (PosixPath.join (self_path w) path)) ;;
  if there : bool then ret true
  else
    branch <- git_branch_for_post (Some path) false ;;
    ret (match branch with Some _ => true | None => false end).

(** What [_kp_status] hands back to its caller: a status, a pair of a status
    and an annotation (or None), or an exception object. *)
Inductive status_value : Type :=
| Status (s : PostStatus)
| Detailed (s : PostStatus) (annotation : option string)
| ExceptionObject (e : exn).

Definition commits_note (n : nat) (what : string) : string :=
  if (n =? 0)%nat then ""
  else " - " +:+ PyStr.str_of_int (Z.of_nat n) +:+ " commits " +:+ what.

Definition _kp_status (path : string) (detailed : bool) (branch : branch_arg)
  : M status_value :=
  cache <- ask _dir_cache ;;
  cache <- match cache with
           | Some c => ret c
           | None => d <- ask self_dir ;;
                     modify (set_dir_cache (Some d)) ;;;
                     ret d
           end ;;
  if bool_decide (path ∈ cache) then ret (Status PUBLISHED) else
  branch <- match branch with
            | BNone => git_branch_for_post (Some path) false
            | b => h <- git_branch b ;; ret (Some h)
            end ;;
  match branch with
  | None => ret (ExceptionObject (ValueError ("No such post: " +:+ path)))
  | Some branch =>
      status <-
        (if String.eqb (name branch) "master" then ret (PUBLISHED, None)
         else
           r <- ask_result (fun w => Git.remote (self_git w)) ;;
           match Git.remote_ref r (name branch) with
           | Some ref =>
               let remote_branch := fst ref in
               behind <- ask_result (fun w =>
                           Git.iter_commits (self_git w) (name branch) remote_branch) ;;
               ahead <- ask_result (fun w =>
                          Git.iter_commits (self_git w) remote_branch (name branch)) ;;
               differs <- ret (Head_ne_str branch path) ;;
               ret (SUBMITTED,
                    Some (commits_note (length behind) "behind"
                          +:+ commits_note (length ahead) "ahead"
                          +:+ (if differs : bool
                               then " [On branch: " +:+ name branch +:+ "]"
                               else "")))
           | None => ret (DRAFT, None)
           end) ;;
      ret (if detailed then Detailed (fst status) (snd status)
           else Status (fst status))
  end.

(** [_kp_read_ref(path, reference)] *)
Definition _kp_read_ref (path reference : string) : M string :=
  ask_result (fun w =>
    Os.read_file (fs w) (PosixPath.join3 (self_path w) path reference)).

(** [_kp_get_revision(path)]: only IOError is caught. *)
Definition _kp_get_revision (path : string) : M Z :=
  try_except
    (text <- _kp_read_ref path "REVISION" ;;
     match PyStr.int_of_str text with
     | Some n => ret n
     | None => raise (ValueError ("invalid literal for int() with base 10: '"
                                    +:+ text +:+ "'"))
     end)
    (fun e => match e with
              | IOError _ => ret 0%Z
              | _ => raise e
              end).

(** what a method of the reference store gives back *)
Inductive py_value : Type :=
| PyNone
| PyInt (n : Z).

(** [_kp_write_ref(path, reference, data)]: returns what [f.write] returns,
    None. *)
Definition _kp_write_ref (path reference data : string) : M py_value :=
  ref_path <- ask (fun w => PosixPath.join3 (self_path w) path reference) ;;
  let ref_dir := PosixPath.dirname ref_path in
  there <- ask (fun w => Os.exists_ (fs w) ref_dir) ;;
  (if negb there then on_fs (fun f => Os.makedirs f ref_dir) else ret tt) ;;;
  on_fs (fun f => Os.write_file f ref_path data) ;;;
  ret PyNone.

(** [_kp_new_revision(path)]: the body is one expression statement, so the
    method returns None. *)
Definition _kp_new_revision (path : string) : M py_value :=
  revision <- _kp_get_revision path ;;
  _kp_write_ref path "REVISION" (PyStr.str_of_int (revision + 1)) ;;;
  ret PyNone.

(* ===================================================================== *)
(** ** The spec's names for the failures *)
(* ===================================================================== *)

Definition DocumentNotFound (path : string) : exn :=
  ValueError ("No such post: " +:+ path).

Definition DocumentAlreadyExists (path : string) : exn :=
  AssertionError ("A knowledge post already exists at '" +:+ path
                  +:+ "'! If you wanted to update it, please pass the '--update' flag.").

Definition NoRemoteConfigured : exn :=
  RuntimeError "No remote repositories exist into which this branch can be submitted.".

Definition AmbiguousTarget : exn :=
  ValueError "To submit a knowledge post, a path to the post and/or a git branch must be specified.".

Definition NoDraftFound (path : string) : exn :=
  ValueError ("It does not appear that you have any drafts in progress for '"
              +:+ path +:+ "'.").

Definition RemoteUnreachable (uri : string) : exn :=
  RuntimeError ("Cannot connect to remote repository " +:+ uri
                +:+ ". Please check your connection, and then try again.").

(** the branch [_submit] is about to push: the one given, else the one the
    path resolves to *)
Definition submit_target (path branch : option string) (w : World)
  : Result (option string) :=
  match branch with
  | Some b => Ret (Some b)
  | None =>
      match fst (git_branch_for_post path false w) with
      | Ret h => Ret (name <$> h)
      | Raise e => Raise e
      end
  end.

(** the published snapshot [_kp_status] consults: the cache once it is set *)
Definition snapshot (w : World) : list string :=
  default (self_dir w) (_dir_cache w).

(** the world once [_kp_status] has made sure the cache is set *)
Definition cached (w : World) : World :=
  match _dir_cache w with
  | Some _ => w
  | None => set_dir_cache (Some (self_dir w)) w
  end.

(** the path of a post's REVISION file *)
Definition revision_file (w : World) (path : string) : string :=
  PosixPath.join3 (self_path w) path "REVISION".

(** A method is read-only when it leaves every world as it found it. *)
Definition read_only {A} (m : M A) : Prop := forall w, snd (m w) = w.

(** no character of [s] is white space *)
Fixpoint no_space (s : string) : bool :=
  match s with
  | EmptyString => true
  | String a s' => negb (PyStr.is_space a) && no_space s'
  end.

(* ===================================================================== *)
(** ** Sample repositories *)
(* ===================================================================== *)

(** a history in which commit [n+1] has the single parent [n] *)
Definition linear (c : commit) : list commit :=
  match c with
  | O => []
  | S p => [p]
  end.

Definition empty_disk : FS := mkFS "/repo" ∅ {[ "/"; "/repo" ]}.

(** The draft [2020/report.kp] lives on the branch of the same name, three
    commits above master; origin has that branch one commit above master. *)
Definition report_repo : GitRepo :=
  mkGit [("2020/report.kp", 3); ("master", 0)] "2020/report.kp"
        [mkRemote "origin" (Some "git@git.example.com:team/repo.git")
                  [("origin/2020/report.kp", 1); ("origin/master", 0)]]
        linear 4
        (fun a b => [Nat.min a b])
        (fun c base => if (base <? c)%nat then ["2020/report.kp/knowledge.md"] else [])
        (fun _ f => Some f).

Definition report_world : World :=
  mkWorld "/repo" report_repo ["2019/old.kp"] None empty_disk
          (fun _ => true) [] [] [] (fun _ _ => Taken).

(** the same repository with the remote host down *)
Definition offline_world : World :=
  mkWorld "/repo" report_repo ["2019/old.kp"] None empty_disk
          (fun _ => false) [] [] [] (fun _ _ => Taken).

(** Only master, no remote; an untracked directory [new/post.kp] is on
    disk, and checkouts leave it there. *)
Definition local_repo : GitRepo :=
  mkGit [("master", 0)] "master" [] linear 1
        (fun a b => [Nat.min a b]) (fun _ _ => []) (fun _ f => Some f).

Definition untracked_world : World :=
  mkWorld "/repo" local_repo [] None
          (mkFS "/repo" ∅ {[ "/"; "/repo"; "/repo/new"; "/repo/new/post.kp" ]})
          (fun _ => true) [] [] [] (fun _ _ => Taken).

(** Two unmerged branches, [a_fix] and [doc.kp], each one commit above
    master, both changing files of [doc.kp] and of [other.kp]. *)
Definition fork (c : commit) : list commit :=
  match c with
  | O => []
  | _ => [O]
  end.

Definition forked_repo : GitRepo :=
  mkGit [("a_fix", 1); ("doc.kp", 2); ("master", 0)] "master" [] fork 2
        (fun _ _ => [O])
        (fun c _ => match c with
                    | O => []
                    | _ => ["doc.kp/knowledge.md"; "other.kp/knowledge.md"]
                    end)
        (fun _ f => Some f).

Definition forked_world : World :=
  mkWorld "/repo" forked_repo [] None empty_disk
          (fun _ => true) [] [] [] (fun _ _ => Taken).

(** A bootstrap whose init creates the directory, whose copies write the
    two scaffold files, and whose commit fails. *)
Definition touch (file : string) (path : string) (f : FS) : Result unit * FS :=
  Os.write_file f (PosixPath.join path file) "scaffold".

Definition commit_fails : Bootstrap :=
  mkBootstrap (fun path f => Os.makedirs f path)
              (touch ".gitmodules")
              (touch ".knowledge_repo_config.py")
              (touch "README.md")
              (fun _ f => (Ret tt, f))
              (fun _ f => (Raise (GitCommandError "commit failed"), f))
              (fun _ f => (Ret tt, f)).

(** A bootstrap whose init cannot create the directory. *)
Definition init_denied : Bootstrap :=
  mkBootstrap (fun _ f => (Raise (OSError "Permission denied"), f))
              (touch ".gitmodules")
              (touch ".knowledge_repo_config.py")
              (touch "README.md")
              (fun _ f => (Ret tt, f))
              (fun _ f => (Ret tt, f))
              (fun _ f => (Ret tt, f)).

Definition bare_world : World :=
  mkWorld "/srv" local_repo [] None (mkFS "/srv" ∅ {[ "/"; "/srv" ]})
          (fun _ => true) [] [] [] (fun _ _ => Taken).

(* ===================================================================== *)
(** ** The rest of the class *)
(* ===================================================================== *)

Definition set_self_path (p : string) (w : World) : World :=
  mkWorld p (self_git w) (self_dir w) (_dir_cache w) (fs w) (probe w)
          (stdin w) (stdout w) (pushed w) (push_outcome w).

(** The setter of the property [path].  [expanduser] is os.path.expanduser
    in the process's environment, [valid_repo] tells whether git.Repo opens
    the directory, [auto_create] is the attribute self.auto_create. *)
Definition path_setter (env : Bootstrap) (expanduser : string -> string)
    (valid_repo : FS -> string -> bool) (auto_create : bool) (path : string)
  : M unit :=
  path <- ask (fun w => PosixPath.abspath (cwd (fs w)) (expanduser path)) ;;
  there <- ask (fun w => Os.exists_ (fs w) path) ;;
  path <- (if negb there then
             path <- ask (fun w => PosixPath.abspath (cwd (fs w)) path) ;;
             (if auto_create : bool then __repo_init env path
              else raise (ValueError ("Provided path '" +:+ path
                                        +:+ "' does not exist."))) ;;;
             ret path
           else ret path) ;;
  ok <- ask (fun w => valid_repo (fs w) path) ;;
  if ok : bool then modify (set_self_path path)
  else raise (AssertionError ("Provided path '" +:+ path
                                +:+ "' is not a valid repository.")).

(** What the network calls of [update] do, as the binding performs them:
    remote.fetch(), remote.pull(name), the number of submodules and
    submodule.update(init=True) of the one at an index. *)
Record Network : Type := mkNetwork {
  fetch : M unit;
  pull : string -> M unit;
  submodules : World -> nat;
  submodule_update : nat -> M unit;
}.

(** [update(branch)]; the argument is not used by the method. *)
Definition update (net : Network) (branch : string) : M unit :=
  nremotes <- ask (fun w => length (remotes (self_git w))) ;;
  if (nremotes =? 0)%nat then ret tt else
  available <- __remote_available ;;
  if negb available then
    host <- __remote_host ;;
    ret tt
  else
    r <- ask_result (fun w => Git.remote (self_git w)) ;;
    fetch net ;;;
    current_branch <- ask (fun w => mkHead (active_branch (self_git w))) ;;
    bs <- ask (fun w => branches (self_git w)) ;;
    master <- match Git.lookup_ref "master" bs with
              | Some _ => ret (mkHead "master")
              | None => raise (AttributeError "master")
              end ;;
    Head_checkout master ;;;
    r <- ask_result (fun w => Git.remote (self_git w)) ;;
    pull net "master" ;;;
    n <- ask (submodules net) ;;
    (if (0 <? n)%nat then submodule_update net 0
     else raise (IndexError "list index out of range")) ;;;
    Head_checkout current_branch.

(** [set_active_draft(path)] *)
Definition set_active_draft (path : option string) : M unit :=
  branch <- git_branch_for_post path false ;;
  match branch with
  | Some h => Head_checkout h
  | None => raise (AttributeError "'NoneType' object has no attribute 'checkout'")
  end.

(** What the index and work-tree calls of [_add_cleanup] do: index.add,
    index.commit, index.reset, git clean -df, git checkout --. *)
Record Staging : Type := mkStaging {
  add_paths : string -> M unit;
  commit_message : string -> M unit;
  reset_index : M unit;
  clean_path : string -> M unit;
  checkout_path : string -> M unit;
}.

(** [_add_cleanup(kp, path, update, branch, squash, message)]; only [path]
    and [message] are used. *)
Definition _add_cleanup (ops : Staging) (path : string) (message : option string)
  : M unit :=
  add_paths ops path ;;;
  try_except
    (message <- match message with
                | None => raw_input "Please enter a commit message for this post: "
                | Some m => ret m
                end ;;
     commit_message ops message)
    (fun e =>
       reset_index ops ;;;
       try_except (clean_path ops path ;;; checkout_path ops path)
                  (fun _ => ret tt) ;;;
       raise e).

(** [_kp_has_ref(path, reference)] *)
Definition _kp_has_ref (path reference : string) : M bool :=
  ask (fun w => Os.isfile (fs w) (PosixPath.join3 (self_path w) path reference)).

(** [n] calls of [_kp_new_revision] in a row *)
Fixpoint new_revisions (n : nat) (path : string) : M unit :=
  match n with
  | O => ret tt
  | S k => _kp_new_revision path ;;; new_revisions k path
  end.

(** the branches [git branch --no-merged master] lists when master is at
    [cb], in listing order *)
Definition unmerged (g : GitRepo) (cb : commit) : list string :=
  fst <$> List.filter
            (fun b => negb (bool_decide
                              (snd b ∈ Git.reachable (parents g) (depth g) cb)))
            (branches g).

(** no character of [s] is [c] *)
Fixpoint lacks (c : ascii) (s : string) : bool :=
  match s with
  | EmptyString => true
  | String a s' => negb (Ascii.eqb a c) && lacks c s'
  end.


(** the branch [n] exists and points to the commit [c] *)
Definition branch_at (n : string) (c : commit) (w : World) : Prop :=
  Git.lookup_ref n (branches (self_git w)) = Some c.

(** The spec's "a branch touches a document": one of the files the branch
    changes, against its merge base with master, belongs to the post.  The
    answer is an error when the changes of the branch cannot be read. *)
Definition touches (w : World) (branch path : string) : Result bool :=
  match fst (git_diff (Some branch) None w) with
  | Ret diffs => Ret (bool_decide (Some path ∈ __get_path_from_ref <$> diffs))
  | Raise e => Raise e
  end.

(** Three unmerged branches, each one commit above master: [a_fix] changes
    [notes.kp], [b_fix] and [c_fix] change [shared.kp]. *)
Definition shared_world : World :=
  mkWorld "/repo"
          (mkGit [("a_fix", 1); ("b_fix", 2); ("c_fix", 3); ("master", 0)] "master" []
                 fork 2
                 (fun _ _ => [O])
                 (fun c _ => match c with
                             | 0 => []
                             | 1 => ["notes.kp/knowledge.md"]
                             | _ => ["shared.kp/knowledge.md"; "shared.kp/images/plot.png"]
                             end)
                 (fun _ f => Some f))
          [] None empty_disk
          (fun _ => true) [] [] [] (fun _ _ => Taken).

(** The branch [a_fix] is checked out, one commit above master; the
    directory [new/post.kp] is on disk, untracked; the user will answer
    the prompt with a word that is not accepted, then with y. *)
Definition on_fix_world : World :=
  mkWorld "/repo"
          (mkGit [("a_fix", 1); ("master", 0)] "a_fix" [] linear 2
                 (fun a b => [Nat.min a b]) (fun _ _ => []) (fun _ f => Some f))
          [] None
          (mkFS "/repo" ∅ {[ "/"; "/repo"; "/repo/new"; "/repo/new/post.kp" ]})
          (fun _ => true) ["maybe"; "y"] [] [] (fun _ _ => Taken).


(** a staging area whose commit fails, and whose clean fails too *)
Definition failing_commit : Staging :=
  mkStaging (fun _ => ret tt)
            (fun _ => raise (GitCommandError "commit failed"))
            (ret tt)
            (fun _ => raise (GitCommandError "clean failed"))
            (fun _ => ret tt).

(** a network on which every call succeeds and changes nothing, for a
    repository with one submodule *)
Definition quiet_network : Network :=
  mkNetwork (ret tt) (fun _ => ret tt) (fun _ => 1) (fun _ => ret tt).

(** [report_repo] reached over https, with the host down *)
Definition https_world : World :=
  mkWorld "/repo"
          (mkGit [("2020/report.kp", 3); ("master", 0)] "2020/report.kp"
                 [mkRemote "origin" (Some "https://git.example.com/team/repo.git")
                           [("origin/2020/report.kp", 1); ("origin/master", 0)]]
                 linear 4
                 (fun a b => [Nat.min a b])
                 (fun c base => if (base <? c)%nat
                                then ["2020/report.kp/knowledge.md"] else [])
                 (fun _ f => Some f))
          ["2019/old.kp"] None empty_disk
          (fun _ => false) [] [] [] (fun _ _ => Taken).

(** a post directory whose REVISION file holds the text of a merge
    conflict, and a notes file beside it *)
Definition conflicted_world : World :=
  mkWorld "/repo" local_repo [] None
          (mkFS "/repo"
                {[ "/repo/post.kp/REVISION" := "<<<<<<< HEAD";
                   "/repo/post.kp/notes.md" := "draft notes" ]}
                {[ "/"; "/repo"; "/repo/post.kp" ]})
          (fun _ => true) [] [] [] (fun _ _ => Taken).

(** [forked_repo] with an origin that only has master *)
Definition forked_with_origin : World :=
  mkWorld "/repo"
          (mkGit [("a_fix", 1); ("doc.kp", 2); ("master", 0)] "master"
                 [mkRemote "origin" (Some "git@git.example.com:team/repo.git")
                           [("origin/master", 0)]]
                 fork 2
                 (fun _ _ => [O])
                 (fun c _ => match c with
                             | O => []
                             | _ => ["doc.kp/knowledge.md"; "other.kp/knowledge.md"]
                             end)
                 (fun _ f => Some f))
          [] None empty_disk
          (fun _ => true) [] [] [] (fun _ _ => Taken).

(* ===================================================================== *)
(** ** The primitives at work *)
(* ===================================================================== *)

Example split_ex : PyStr.split "/"%char "a/b.kp/c" = ["a"; "b.kp"; "c"].
Proof. reflexivity. Qed.
Example strip_ex : PyStr.strip (PyStr.remove_char "*" "* new/post.kp ") = "new/post.kp".
Proof. reflexivity. Qed.
Example int_ex : PyStr.int_of_str " 12 " = Some 12%Z /\ PyStr.int_of_str "x" = None
                 /\ PyStr.int_of_str "" = None /\ PyStr.str_of_int 20 = "20".
Proof. repeat split; reflexivity. Qed.
Example join_ex : PosixPath.join3 "/repo" "new/post.kp" "REVISION" = "/repo/new/post.kp/REVISION"
  /\ PosixPath.dirname "/repo/new/post.kp/REVISION" = "/repo/new/post.kp"
  /\ PosixPath.dirname "REVISION" = ""
  /\ PosixPath.abspath "/cwd" "/repo/./new//post.kp/../x" = "/repo/new/x".
Proof. repeat split; reflexivity. Qed.

(* ===================================================================== *)
(** ** Running a method step by step *)
(* ===================================================================== *)

Section Steps.
Context {A B : Type}.
Implicit Types (m : M A) (k : A -> M B).

Lemma bind_Ret m k w a w1 : m w = (Ret a, w1) -> bind m k w = k a w1.
Proof. intros H. unfold bind. now rewrite H. Qed.

Lemma bind_Raise m k w e w1 : m w = (Raise e, w1) -> bind m k w = (Raise e, w1).
Proof. intros H. unfold bind. now rewrite H. Qed.

Lemma bind_inv_Ret m k w b w2 :
  bind m k w = (Ret b, w2) ->
  exists a w1, m w = (Ret a, w1) /\ k a w1 = (Ret b, w2).
Proof.
  unfold bind. destruct (m w) as [[a|e] w1]; intros H.
  - now exists a, w1.
  - discriminate.
Qed.

Lemma bind_inv_Raise m k w e w2 :
  bind m k w = (Raise e, w2) ->
  m w = (Raise e, w2) \/ exists a w1, m w = (Ret a, w1) /\ k a w1 = (Raise e, w2).
Proof.
  unfold bind. destruct (m w) as [[a|e'] w1]; intros H.
  - right. now exists a, w1.
  - left. injection H as -> ->. reflexivity.
Qed.
End Steps.

Lemma read_only_run {A} (m : M A) w : read_only m -> m w = (fst (m w), w).
Proof. intros H. specialize (H w). destruct (m w); simpl in *. now subst. Qed.

Lemma read_only_ret {A} (a : A) : read_only (ret a).
Proof. now intros w. Qed.

Lemma read_only_raise {A} e : read_only (@raise A e).
Proof. now intros w. Qed.

Lemma read_only_ask {A} (f : World -> A) : read_only (ask f).
Proof. now intros w. Qed.

Lemma read_only_ask_result {A} (f : World -> Result A) : read_only (ask_result f).
Proof. now intros w. Qed.

Lemma read_only_bind {A B} (m : M A) (k : A -> M B) :
  read_only m -> (forall a, read_only (k a)) -> read_only (bind m k).
Proof.
  intros Hm Hk w. unfold bind. specialize (Hm w).
  destruct (m w) as [[a|e] w1]; simpl in *; subst; [apply Hk | reflexivity].
Qed.

Lemma read_only_for_each {A B} (body : A -> M B) l :
  (forall x, read_only (body x)) -> read_only (for_each body l).
Proof.
  intros Hb. induction l as [|x l IH]; simpl.
  - apply read_only_ret.
  - apply read_only_bind; [apply Hb | intros y].
    apply read_only_bind; [exact IH | intros ys; apply read_only_ret].
Qed.

Lemma read_only_for_keep {A} (test : A -> M bool) l :
  (forall x, read_only (test x)) -> read_only (for_keep test l).
Proof.
  intros Hb. induction l as [|x l IH]; simpl.
  - apply read_only_ret.
  - apply read_only_bind; [apply Hb | intros y].
    apply read_only_bind; [exact IH | intros ys; apply read_only_ret].
Qed.

Create HintDb readonly.
#[local] Hint Resolve read_only_ret read_only_raise read_only_ask
  read_only_ask_result : readonly.

Ltac read_only_step :=
  cbv beta;
  match goal with
  | |- read_only (bind _ _) => apply read_only_bind; [| intros ?]
  | |- read_only (for_each _ _) => apply read_only_for_each; intros ?
  | |- read_only (for_keep _ _) => apply read_only_for_keep; intros ?
  | |- read_only (if ?c then _ else _) => destruct c
  | |- read_only (match ?x with _ => _ end) => destruct x
  | |- forall _, _ => intros ?
  | |- _ => solve [auto with readonly]
  end.
Ltac read_only_tac := repeat read_only_step.

Lemma read_only_git_local_branches : read_only git_local_branches.
Proof. unfold git_local_branches. read_only_tac. Qed.

Lemma read_only_git_diff ref ref_base : read_only (git_diff ref ref_base).
Proof. unfold git_diff. read_only_tac. Qed.

#[local] Hint Resolve read_only_git_local_branches read_only_git_diff : readonly.

Lemma read_only_git_local_posts bs : read_only (git_local_posts bs).
Proof. unfold git_local_posts. read_only_tac. Qed.

#[local] Hint Resolve read_only_git_local_posts : readonly.

Lemma read_only_branches_with_post path : read_only (branches_with_post path).
Proof. unfold branches_with_post. read_only_tac. Qed.

Lemma read_only_git_branch b : read_only (git_branch b).
Proof. unfold git_branch. read_only_tac. Qed.

#[local] Hint Resolve read_only_branches_with_post read_only_git_branch : readonly.

Lemma read_only_git_branch_for_post path :
  read_only (git_branch_for_post path false).
Proof. unfold git_branch_for_post. read_only_tac. Qed.

Lemma read_only_remote_uri : read_only __remote_uri.
Proof. unfold __remote_uri. read_only_tac. Qed.

#[local] Hint Resolve read_only_git_branch_for_post read_only_remote_uri : readonly.

Lemma read_only_remote_host : read_only __remote_host.
Proof. unfold __remote_host. read_only_tac. Qed.

#[local] Hint Resolve read_only_remote_host : readonly.

Lemma read_only_remote_available : read_only __remote_available.
Proof. unfold __remote_available. read_only_tac. Qed.

#[local] Hint Resolve read_only_remote_available : readonly.

#[local] Arguments git_local_branches : simpl never.
#[local] Arguments git_local_posts : simpl never.
#[local] Arguments branches_with_post : simpl never.
#[local] Arguments git_branch : simpl never.
#[local] Arguments git_branch_for_post : simpl never.
#[local] Arguments git_checkout : simpl never.
#[local] Arguments __remote_uri : simpl never.
#[local] Arguments __remote_host : simpl never.
#[local] Arguments __remote_available : simpl never.
#[local] Arguments remote_push : simpl never.

(* ===================================================================== *)
(** ** BranchResolver *)
(* ===================================================================== *)

Lemma git_branch_existing w b :
  b ∈ Git.branch_names (self_git w) ->
  git_branch (BName b) w = (Ret (mkHead b), w).
Proof.
  intros Hb. unfold git_branch, bind, ask. simpl.
  rewrite bool_decide_eq_true_2 by exact Hb. reflexivity.
Qed.

(** A path that is itself the name of an unmerged branch resolves to that
    branch; the branches that touch the document are not looked at. *)
Lemma named_branch_first w path local :
  fst (git_local_branches w) = Ret local ->
  path ∈ local ->
  path ∈ Git.branch_names (self_git w) ->
  git_branch_for_post (Some path) false w = (Ret (Some (mkHead path)), w).
Proof.
  intros Hl Hin Hb. unfold git_branch_for_post.
  rewrite (bind_Ret _ _ w local w).
  2:{ rewrite (read_only_run _ w read_only_git_local_branches). now rewrite Hl. }
  rewrite bool_decide_eq_true_2 by exact Hin.
  rewrite (bind_Ret _ _ w (mkHead path) w) by now apply git_branch_existing.
  reflexivity.
Qed.

(** When the path does not name an unmerged branch, the result is the head
    of the list the loop gathered. *)
Lemma first_of_branches_with_post w path b local others :
  fst (git_local_branches w) = Ret local ->
  path ∉ local ->
  fst (branches_with_post path w) = Ret (b :: others) ->
  b ∈ Git.branch_names (self_git w) ->
  git_branch_for_post (Some path) false w = (Ret (Some (mkHead b)), w).
Proof.
  intros Hl Hnin Hm Hb. unfold git_branch_for_post.
  rewrite (bind_Ret _ _ w local w).
  2:{ rewrite (read_only_run _ w read_only_git_local_branches). now rewrite Hl. }
  rewrite bool_decide_eq_false_2 by exact Hnin.
  rewrite (bind_Ret _ _ w (b :: others) w).
  2:{ rewrite (read_only_run _ w (read_only_branches_with_post path)).
      now rewrite Hm. }
  destruct others as [|b2 others].
  - rewrite (bind_Ret _ _ w (mkHead b) w) by now apply git_branch_existing.
    reflexivity.
  - rewrite (bind_Ret _ _ w 0%Z w) by reflexivity.
    rewrite (bind_Ret _ _ w b w) by reflexivity.
    rewrite (bind_Ret _ _ w (mkHead b) w) by now apply git_branch_existing.
    reflexivity.
Qed.

(** The test the loop of [git_branch_for_post] makes on a branch answers
    whether the branch touches the path. *)
Lemma post_test_touches w path branch t :
  touches w branch path = Ret t ->
  (posts <- git_local_posts (Some [branch]) ;;
   ret (bool_decide (path ∈ posts))) w = (Ret t, w).
Proof.
  unfold touches. intros Ht.
  destruct (fst (git_diff (Some branch) None w)) as [diffs|e] eqn:Hd; [| discriminate].
  injection Ht as <-.
  assert (Hrun : git_diff (Some branch) None w = (Ret diffs, w)).
  { rewrite (read_only_run _ w (read_only_git_diff (Some branch) None)).
    now rewrite Hd. }
  unfold git_local_posts.
  rewrite (bind_Ret _ _ w (remove_dups (concat [omap __get_path_from_ref diffs])) w).
  - unfold ret. f_equal. f_equal. apply bool_decide_ext.
    rewrite elem_of_remove_dups. simpl. rewrite app_nil_r.
    rewrite list_elem_of_omap, list_elem_of_fmap. split.
    + intros (f & Hf & E). exists f. split; [now symmetry | exact Hf].
    + intros (f & E & Hf). exists f. split; [exact Hf | now symmetry].
  - rewrite (bind_Ret _ _ w [branch] w) by reflexivity.
    rewrite (bind_Ret _ _ w [omap __get_path_from_ref diffs] w); [reflexivity |].
    simpl. rewrite (bind_Ret _ _ w (omap __get_path_from_ref diffs) w).
    + reflexivity.
    + now rewrite (bind_Ret _ _ w diffs w Hrun).
Qed.

(** The loop keeps the branches that touch the path, in listing order. *)
Lemma for_keep_touching w path after :
  Forall (fun b' => exists t, touches w b' path = Ret t) after ->
  exists kept,
    for_keep (fun branch =>
                posts <- git_local_posts (Some [branch]) ;;
                ret (bool_decide (path ∈ posts))) after w = (Ret kept, w).
Proof.
  induction 1 as [|b' after [t Ht] _ [kept IH]]; simpl.
  - now exists [].
  - exists (if t then b' :: kept else kept).
    rewrite (bind_Ret _ _ w t w) by now apply post_test_touches.
    now rewrite (bind_Ret _ _ w kept w IH).
Qed.

Lemma for_keep_first_touching w path before b after :
  Forall (fun b' => touches w b' path = Ret false) before ->
  touches w b path = Ret true ->
  Forall (fun b' => exists t, touches w b' path = Ret t) after ->
  exists others,
    for_keep (fun branch =>
                posts <- git_local_posts (Some [branch]) ;;
                ret (bool_decide (path ∈ posts))) (before ++ b :: after) w
    = (Ret (b :: others), w).
Proof.
  intros Hbefore Hb Hafter. induction Hbefore as [|b' before Hb' _ [others IH]]; simpl.
  - destruct (for_keep_touching w path after Hafter) as [kept Hk].
    exists kept.
    rewrite (bind_Ret _ _ w true w) by now apply post_test_touches.
    now rewrite (bind_Ret _ _ w kept w Hk).
  - exists others.
    rewrite (bind_Ret _ _ w false w) by now apply post_test_touches.
    now rewrite (bind_Ret _ _ w (b :: others) w IH).
Qed.

(** C9 (as amended): when the path does not name an unmerged branch, the
    non-interactive resolution returns the first branch of the listing that
    touches the document: the branches listed before it do not touch it,
    and it does.  A path that names an unmerged branch resolves to that
    branch, whatever touches it.  In every case the call leaves the world
    as it was, so a second call gives the same result. *)
Theorem first_match_resolution (w : World) (path : string) (local : list string) :
  fst (git_local_branches w) = Ret local ->
  (path ∉ local ->
   forall before b after,
     local = before ++ b :: after ->
     Forall (fun b' => touches w b' path = Ret false) before ->
     touches w b path = Ret true ->
     Forall (fun b' => exists t, touches w b' path = Ret t) after ->
     b ∈ Git.branch_names (self_git w) ->
     git_branch_for_post (Some path) false w = (Ret (Some (mkHead b)), w))
  /\ (path ∈ local ->
      path ∈ Git.branch_names (self_git w) ->
      git_branch_for_post (Some path) false w = (Ret (Some (mkHead path)), w))
  /\ (forall r w', git_branch_for_post (Some path) false w = (r, w') ->
        w' = w /\ git_branch_for_post (Some path) false w' = (r, w')).
Proof.
  intros Hl. split; [| split].
  - intros Hnin before b after -> Hbefore Hb Hafter Hin.
    destruct (for_keep_first_touching w path before b after Hbefore Hb Hafter)
      as [others Hk].
    apply first_of_branches_with_post with (before ++ b :: after) others;
      try assumption.
    unfold branches_with_post.
    rewrite (bind_Ret _ _ w (before ++ b :: after) w).
    + now rewrite Hk.
    + rewrite (read_only_run _ w read_only_git_local_branches). now rewrite Hl.
  - intros Hin Hb. now apply named_branch_first with local.
  - intros r w' Hrun.
    pose proof (read_only_git_branch_for_post (Some path) w) as Hw.
    rewrite Hrun in Hw. simpl in Hw. subst w'. split; [reflexivity | exact Hrun].
Qed.

(** In [shared_world] the listing is [a_fix], [b_fix], [c_fix]; [a_fix]
    does not touch [shared.kp], the two others do, and [b_fix] is
    returned. *)
Lemma first_match_resolution_witness :
  git_branch_for_post (Some "shared.kp") false shared_world
  = (Ret (Some (mkHead "b_fix")), shared_world).
Proof.
  refine (proj1 (first_match_resolution shared_world "shared.kp"
                   ["a_fix"; "b_fix"; "c_fix"] eq_refl)
            _ ["a_fix"] "b_fix" ["c_fix"] eq_refl _ eq_refl _ _).
  - vm_compute. intros H. apply list_elem_of_In in H. simpl in H.
    intuition discriminate.
  - repeat constructor.
  - repeat constructor. now exists true.
  - apply list_elem_of_In. simpl. auto.
Defined.

(** C9, as stated, fails: [doc.kp] is touched by the unmerged branches
    [a_fix] and [doc.kp], [a_fix] comes first in the listing, and the
    resolution returns the branch [doc.kp]. *)
Lemma first_match_not_always :
  fst (git_local_branches forked_world) = Ret ["a_fix"; "doc.kp"]
  /\ touches forked_world "a_fix" "doc.kp" = Ret true
  /\ touches forked_world "doc.kp" "doc.kp" = Ret true
  /\ fst (git_branch_for_post (Some "doc.kp") false forked_world)
     = Ret (Some (mkHead "doc.kp"))
  /\ fst (git_branch_for_post (Some "doc.kp") false forked_world)
     <> Ret (Some (mkHead "a_fix")).
Proof. repeat split; try reflexivity. vm_compute. discriminate. Qed.

(* ===================================================================== *)
(** ** RemoteReachability and submit *)
(* ===================================================================== *)

Lemma remote_uri_of w r :
  Git.remote (self_git w) = Ret r -> __remote_uri w = (Ret (remote_url r), w).
Proof. intros Hr. unfold __remote_uri, bind, ask_result, ret. now rewrite Hr. Qed.

Lemma match_host_nonempty u h : match_host u = Some h -> u <> "".
Proof. intros H ->. discriminate. Qed.

Lemma remote_host_of w r u :
  Git.remote (self_git w) = Ret r -> remote_url r = Some u -> u <> "" ->
  __remote_host w = (Ret (match_host u), w).
Proof.
  intros Hr Hu Hne. unfold __remote_host.
  assert (Huri : __remote_uri w = (Ret (Some u), w)).
  { rewrite (remote_uri_of w r Hr). now rewrite Hu. }
  rewrite (bind_Ret _ _ w (Some u) w Huri).
  destruct (String.eqb_spec u "") as [->|_]; [contradiction |].
  now rewrite (bind_Ret _ _ w (Some u) w Huri).
Qed.

(** The probe answers for the host between the first [@] and the next [:]
    of origin's URL. *)
Lemma remote_available_probe w r u h :
  Git.remote (self_git w) = Ret r -> remote_url r = Some u ->
  match_host u = Some h -> h <> "" ->
  __remote_available w = (Ret (probe w h), w).
Proof.
  intros Hr Hu Hm Hh. unfold __remote_available.
  rewrite (bind_Ret _ _ w (Some h) w).
  2:{ rewrite (remote_host_of w r u Hr Hu (match_host_nonempty u h Hm)).
      now rewrite Hm. }
  destruct (String.eqb_spec h "") as [->|_]; [contradiction | reflexivity].
Qed.

Lemma length_remotes_zero (g : GitRepo) :
  remotes g <> [] -> (length (remotes g) =? 0)%nat = false.
Proof. destruct (remotes g); [contradiction | reflexivity]. Qed.

Lemma app_one_neq {A} (l : list A) x : l ++ [x] <> l.
Proof.
  intros H. apply (f_equal length) in H. rewrite length_app in H. simpl in H. lia.
Qed.

Lemma push_taken_local g b :
  branches (Git.push_taken g b) = branches g
  /\ active_branch (Git.push_taken g b) = active_branch g.
Proof. unfold Git.push_taken. now destruct (Git.lookup_ref b (branches g)). Qed.

(** What a push leaves: the log has one more entry, the local branches,
    the branch checked out and the disk are as they were. *)
Lemma remote_push_local w b force r0 w0 :
  remote_push b force w = (r0, w0) ->
  branches (self_git w0) = branches (self_git w)
  /\ active_branch (self_git w0) = active_branch (self_git w)
  /\ fs w0 = fs w
  /\ (pushed w0 = pushed w -> w0 = w).
Proof.
  unfold remote_push, bind, ask_result, modify, ask, raise, ret.
  destruct (Git.remote (self_git w)); simpl.
  - destruct (push_outcome w b force); intros H; injection H as <- <-; simpl;
      repeat split; try (intros H; now apply app_one_neq in H);
      apply push_taken_local.
  - intros H; injection H as <- <-; auto.
Qed.

(** Whatever [_submit] does, the local branches and the disk stay as they
    were, and a run that sends no push changes nothing. *)
Lemma submit_keeps_history w path branch force r w' :
  _submit path branch force w = (r, w') ->
  branches (self_git w') = branches (self_git w)
  /\ active_branch (self_git w') = active_branch (self_git w)
  /\ fs w' = fs w
  /\ (pushed w' = pushed w -> w' = w).
Proof.
  unfold _submit. unfold bind at 1. simpl.
  destruct (length (remotes (self_git w)) =? 0)%nat.
  { intros H. injection H as <- <-. auto. }
  assert (Hgo : forall b r0 w0,
     (available <- __remote_available ;;
      if negb available
      then uri <- __remote_uri ;;
           raise (RuntimeError ("Cannot connect to remote repository "
                                +:+ default "None" uri
                                +:+ ". Please check your connection, and then try again."))
      else remote_push b force) w = (r0, w0) ->
     branches (self_git w0) = branches (self_git w)
     /\ active_branch (self_git w0) = active_branch (self_git w)
     /\ fs w0 = fs w
     /\ (pushed w0 = pushed w -> w0 = w)).
  { intros b r0 w0. unfold bind at 1.
    rewrite (read_only_run _ w read_only_remote_available).
    destruct (fst (__remote_available w)) as [[|]|e]; simpl.
    - apply remote_push_local.
    - unfold bind. rewrite (read_only_run _ w read_only_remote_uri).
      destruct (fst (__remote_uri w)); intros H; injection H as <- <-; auto.
    - intros H; injection H as <- <-; auto. }
  destruct branch as [b|].
  - destruct path; rewrite (bind_Ret _ _ w (Some b) w) by reflexivity; apply Hgo.
  - destruct path as [p|].
    + unfold bind at 1. unfold bind at 1.
      rewrite (read_only_run _ w (read_only_git_branch_for_post (Some p))).
      destruct (fst (git_branch_for_post (Some p) false w)) as [[h|]|e]; simpl.
      * apply Hgo.
      * intros H; injection H as <- <-; auto.
      * intros H; injection H as <- <-; auto.
    + intros H; injection H as <- <-; auto.
Qed.

(** C4 (as amended): [_submit] checks its preconditions in order and raises
    before any push is sent: no remote, then no path and no branch, then a
    path that resolves to no branch, then an origin whose URL has the form
    user@host:path and whose host does not answer the probe.  In each of
    these cases the world, the log of pushes included, is left as it was;
    so it is when no remote is called origin, where the error of
    [repo.remote()] leaves.  In every run the local branches, the branch
    checked out and the disk are left as they were, and a run that sends no
    push changes nothing. *)
Theorem submit_fails_fast (w : World) (path branch : option string) (force : bool) :
  (remotes (self_git w) = [] ->
     _submit path branch force w = (Raise NoRemoteConfigured, w))
  /\ (remotes (self_git w) <> [] -> path = None -> branch = None ->
     _submit path branch force w = (Raise AmbiguousTarget, w))
  /\ (remotes (self_git w) <> [] -> branch = None ->
      forall p, path = Some p ->
      fst (git_branch_for_post (Some p) false w) = Ret None ->
     _submit path branch force w = (Raise (NoDraftFound p), w))
  /\ (remotes (self_git w) <> [] ->
      forall b r u h,
      submit_target path branch w = Ret (Some b) ->
      Git.remote (self_git w) = Ret r -> remote_url r = Some u ->
      match_host u = Some h -> h <> "" -> probe w h = false ->
     _submit path branch force w = (Raise (RemoteUnreachable u), w))
  /\ (remotes (self_git w) <> [] ->
      forall b e,
      submit_target path branch w = Ret (Some b) ->
      Git.remote (self_git w) = Raise e ->
     _submit path branch force w = (Raise e, w))
  /\ (forall r w', _submit path branch force w = (r, w') ->
      branches (self_git w') = branches (self_git w)
      /\ active_branch (self_git w') = active_branch (self_git w)
      /\ fs w' = fs w
      /\ (pushed w' = pushed w -> w' = w)).
Proof.
  split; [| split; [| split; [| split; [| split]]]].
  - intros H. unfold _submit, bind, ask. simpl. now rewrite H.
  - intros H -> ->. unfold _submit, bind, ask. simpl.
    now rewrite length_remotes_zero.
  - intros H -> p -> Hnone. unfold _submit. unfold bind at 1. simpl.
    rewrite length_remotes_zero by exact H.
    rewrite (bind_Ret _ _ w None w); [reflexivity |].
    rewrite (bind_Ret _ _ w None w); [reflexivity |].
    rewrite (read_only_run _ w (read_only_git_branch_for_post (Some p))).
    now rewrite Hnone.
  - intros H b r u h Ht Hr Hu Hm Hh Hp.
    assert (Hgo :
      (available <- __remote_available ;;
       if negb available
       then uri <- __remote_uri ;;
            raise (RuntimeError ("Cannot connect to remote repository "
                                 +:+ default "None" uri
                                 +:+ ". Please check your connection, and then try again."))
       else remote_push b force) w = (Raise (RemoteUnreachable u), w)).
    { rewrite (bind_Ret _ _ w false w).
      2:{ rewrite (remote_available_probe w r u h) by assumption. now rewrite Hp. }
      simpl. rewrite (bind_Ret _ _ w (Some u) w); [reflexivity |].
      rewrite (remote_uri_of w r Hr). now rewrite Hu. }
    unfold _submit. unfold bind at 1. simpl.
    rewrite length_remotes_zero by exact H.
    unfold submit_target in Ht.
    destruct branch as [b0|].
    + injection Ht as ->.
      destruct path; rewrite (bind_Ret _ _ w (Some b) w) by reflexivity; exact Hgo.
    + destruct path as [p|].
      * destruct (fst (git_branch_for_post (Some p) false w)) as [oh|e] eqn:Hf;
          [| discriminate].
        injection Ht as Ht.
        rewrite (bind_Ret _ _ w (Some b) w); [exact Hgo |].
        rewrite (bind_Ret _ _ w oh w).
        2:{ rewrite (read_only_run _ w (read_only_git_branch_for_post (Some p))).
            now rewrite Hf. }
        unfold ret. now rewrite Ht.
      * discriminate.
  - intros H b e Ht Hr.
    assert (Hgo :
      (available <- __remote_available ;;
       if negb available
       then uri <- __remote_uri ;;
            raise (RuntimeError ("Cannot connect to remote repository "
                                 +:+ default "None" uri
                                 +:+ ". Please check your connection, and then try again."))
       else remote_push b force) w = (Raise e, w)).
    { apply bind_Raise. unfold __remote_available. apply bind_Raise.
      unfold __remote_host. apply bind_Raise.
      unfold __remote_uri. apply bind_Raise.
      unfold ask_result. now rewrite Hr. }
    unfold _submit. unfold bind at 1. simpl.
    rewrite length_remotes_zero by exact H.
    unfold submit_target in Ht.
    destruct branch as [b0|].
    + injection Ht as ->.
      destruct path; rewrite (bind_Ret _ _ w (Some b) w) by reflexivity; exact Hgo.
    + destruct path as [p|].
      * destruct (fst (git_branch_for_post (Some p) false w)) as [oh|e0] eqn:Hf;
          [| discriminate].
        injection Ht as Ht.
        rewrite (bind_Ret _ _ w (Some b) w); [exact Hgo |].
        rewrite (bind_Ret _ _ w oh w).
        2:{ rewrite (read_only_run _ w (read_only_git_branch_for_post (Some p))).
            now rewrite Hf. }
        unfold ret. now rewrite Ht.
      * discriminate.
  - intros r w' H. eapply submit_keeps_history; eassumption.
Qed.

(** The four failures, each at a sample world that is left untouched. *)
Lemma submit_fails_fast_witness :
  _submit (Some "new/post.kp") None false untracked_world
    = (Raise NoRemoteConfigured, untracked_world)
  /\ _submit None None false report_world = (Raise AmbiguousTarget, report_world)
  /\ _submit (Some "ghost.kp") None false report_world
    = (Raise (NoDraftFound "ghost.kp"), report_world)
  /\ _submit (Some "2020/report.kp") None true offline_world
    = (Raise (RemoteUnreachable "git@git.example.com:team/repo.git"), offline_world).
Proof.
  split; [| split; [| split]].
  - apply (proj1 (submit_fails_fast untracked_world (Some "new/post.kp") None false)).
    reflexivity.
  - apply (proj1 (proj2 (submit_fails_fast report_world None None false)));
      [discriminate | reflexivity | reflexivity].
  - apply (proj1 (proj2 (proj2
             (submit_fails_fast report_world (Some "ghost.kp") None false))));
      [discriminate | reflexivity | reflexivity | reflexivity].
  - apply (proj1 (proj2 (proj2 (proj2
             (submit_fails_fast offline_world (Some "2020/report.kp") None true))))
             ltac:(discriminate) "2020/report.kp"
             (mkRemote "origin" (Some "git@git.example.com:team/repo.git")
                       [("origin/2020/report.kp", 1); ("origin/master", 0)])
             "git@git.example.com:team/repo.git" "git.example.com");
      try reflexivity.
    discriminate.
Defined.

(** C4, as stated, fails: the origin of [https_world] has an https URL and
    no host answers, so the remote cannot be reached; no host is read from
    such a URL, nothing is probed, and the push is sent. *)
Lemma unreachable_https_remote_is_pushed_to :
  (forall host, probe https_world host = false)
  /\ remote_url <$> remotes (self_git https_world)
     = [Some "https://git.example.com/team/repo.git"]
  /\ fst (_submit (Some "2020/report.kp") None false https_world) = Ret tt
  /\ pushed (snd (_submit (Some "2020/report.kp") None false https_world))
     = [("2020/report.kp", false)]
  /\ (forall u, fst (_submit (Some "2020/report.kp") None false https_world)
                <> Raise (RemoteUnreachable u)).
Proof.
  split; [reflexivity |]. split; [reflexivity |].
  assert (H : fst (_submit (Some "2020/report.kp") None false https_world) = Ret tt)
    by (vm_compute; reflexivity).
  split; [exact H |]. split; [vm_compute; reflexivity |].
  intros u. rewrite H. discriminate.
Qed.

(* ===================================================================== *)
(** ** StatusEngine *)
(* ===================================================================== *)

Lemma cached_git w : self_git (cached w) = self_git w.
Proof. unfold cached. now destruct (_dir_cache w). Qed.

Lemma cached_fs w : fs (cached w) = fs w.
Proof. unfold cached. now destruct (_dir_cache w). Qed.

(** The first statements of [_kp_status]: fill the cache if it is not
    there, then test the path against it. *)
Lemma kp_status_cache_step {A} (k : list string -> M A) w :
  (cache <- ask _dir_cache ;;
   cache <- match cache with
            | Some c => ret c
            | None => d <- ask self_dir ;;
                      modify (set_dir_cache (Some d)) ;;;
                      ret d
            end ;;
   k cache) w = k (snapshot w) (cached w).
Proof.
  unfold bind, ask, modify, ret, snapshot, cached.
  now destruct (_dir_cache w).
Qed.

Lemma kp_status_in_snapshot w path detailed branch :
  path ∈ snapshot w ->
  _kp_status path detailed branch w = (Ret (Status PUBLISHED), cached w).
Proof.
  intros Hin. unfold _kp_status. rewrite kp_status_cache_step.
  now rewrite bool_decide_eq_true_2 by exact Hin.
Qed.

(** C5: a path in the published snapshot has status PUBLISHED, whatever
    branch is asked for, whatever the branches, the checked-out branch and
    the remotes are, and with or without the annotation; the cache, when it
    is already set, holds that snapshot. *)
Theorem published_short_circuit (w : World) (path : string) (detailed : bool)
    (branch : branch_arg) :
  path ∈ self_dir w ->
  _dir_cache w = None \/ _dir_cache w = Some (self_dir w) ->
  _kp_status path detailed branch w = (Ret (Status PUBLISHED), cached w).
Proof.
  intros Hin Hc. apply kp_status_in_snapshot.
  unfold snapshot. now destruct Hc as [-> | ->].
Qed.

(** [2019/old.kp] is published; asking for its status on the draft branch,
    with details, still gives PUBLISHED. *)
Lemma published_short_circuit_witness :
  _kp_status "2019/old.kp" true (BName "2020/report.kp") report_world
  = (Ret (Status PUBLISHED), cached report_world).
Proof.
  apply (published_short_circuit report_world "2019/old.kp" true
           (BName "2020/report.kp")).
  - apply list_elem_of_In. simpl. auto.
  - left. reflexivity.
Defined.

(** Past the cache test, with no branch given, the owning branch is looked
    up in the world whose cache is set. *)
Lemma kp_status_resolved w path detailed (found : option Head) :
  path ∉ snapshot w ->
  fst (git_branch_for_post (Some path) false (cached w)) = Ret found ->
  _kp_status path detailed BNone w =
  match found with
  | None => (Ret (ExceptionObject (DocumentNotFound path)), cached w)
  | Some branch =>
      (status <-
        (if String.eqb (name branch) "master" then ret (PUBLISHED, None)
         else
           r <- ask_result (fun w => Git.remote (self_git w)) ;;
           match Git.remote_ref r (name branch) with
           | Some ref =>
               let remote_branch := fst ref in
               behind <- ask_result (fun w =>
                           Git.iter_commits (self_git w) (name branch) remote_branch) ;;
               ahead <- ask_result (fun w =>
                          Git.iter_commits (self_git w) remote_branch (name branch)) ;;
               differs <- ret (Head_ne_str branch path) ;;
               ret (SUBMITTED,
                    Some (commits_note (length behind) "behind"
                          +:+ commits_note (length ahead) "ahead"
                          +:+ (if differs : bool
                               then " [On branch: " +:+ name branch +:+ "]"
                               else "")))
           | None => ret (DRAFT, None)
           end) ;;
      ret (if detailed then Detailed (fst status) (snd status)
           else Status (fst status))) (cached w)
  end.
Proof.
  intros Hnin Hf. unfold _kp_status. rewrite kp_status_cache_step.
  rewrite bool_decide_eq_false_2 by exact Hnin.
  rewrite (bind_Ret _ _ (cached w) found (cached w)).
  2:{ rewrite (read_only_run _ (cached w)
                 (read_only_git_branch_for_post (Some path))).
      now rewrite Hf. }
  destruct found; reflexivity.
Qed.

(** C1 on the code: for a path that is not in the published snapshot and
    that resolves to no branch, [_kp_status] returns normally, and the value
    it returns is the exception object; nothing is raised. *)
Theorem status_of_missing_returns_error_object (w : World) (path : string)
    (detailed : bool) :
  path ∉ snapshot w ->
  fst (git_branch_for_post (Some path) false (cached w)) = Ret None ->
  _kp_status path detailed BNone w
    = (Ret (ExceptionObject (DocumentNotFound path)), cached w)
  /\ forall e, fst (_kp_status path detailed BNone w) <> Raise e.
Proof.
  intros Hnin Hf.
  rewrite (kp_status_resolved w path detailed None Hnin Hf).
  split; [reflexivity | intros e; discriminate].
Qed.

(** [ghost.kp] is on no branch and not published. *)
Lemma status_of_missing_witness :
  _kp_status "ghost.kp" false BNone report_world
    = (Ret (ExceptionObject (ValueError "No such post: ghost.kp")),
       cached report_world)
  /\ forall e, fst (_kp_status "ghost.kp" false BNone report_world) <> Raise e.
Proof.
  apply (status_of_missing_returns_error_object report_world "ghost.kp" false).
  - vm_compute. intros H. apply list_elem_of_In in H. simpl in H.
    intuition discriminate.
  - reflexivity.
Defined.

(** The annotation of a submitted post: the non-zero counts, then the
    branch note, which the comparison of the branch object with the path
    never leaves out. *)
Lemma kp_status_submitted w path (h : Head) r ref ahead behind :
  path ∉ snapshot w ->
  fst (git_branch_for_post (Some path) false (cached w)) = Ret (Some h) ->
  name h <> "master" ->
  Git.remote (self_git w) = Ret r ->
  Git.remote_ref r (name h) = Some ref ->
  Git.iter_commits (self_git w) (fst ref) (name h) = Ret ahead ->
  Git.iter_commits (self_git w) (name h) (fst ref) = Ret behind ->
  _kp_status path true BNone w =
  (Ret (Detailed SUBMITTED
          (Some (commits_note (length behind) "behind"
                 +:+ commits_note (length ahead) "ahead"
                 +:+ " [On branch: " +:+ name h +:+ "]"))),
   cached w).
Proof.
  intros Hnin Hf Hm Hr Href Ha Hb.
  rewrite (kp_status_resolved w path true (Some h) Hnin Hf).
  destruct (String.eqb_spec (name h) "master") as [E|_]; [contradiction |].
  unfold bind, ask_result, ask, ret.
  rewrite cached_git, Hr, Href. simpl. rewrite !cached_git.
  now rewrite Hb, Ha.
Qed.

(** C6 (as amended): with the owning branch on the remote under the same
    name, two commits ahead of it and none behind, the detailed status is
    SUBMITTED with an annotation that starts with a space, [" - 2 commits
    ahead"], and has no "behind" part.  On the code the branch note comes
    next in every run, also for a branch named like the document: the test
    [branch != path] compares a Head with a str. *)
Theorem submitted_two_ahead (w : World) (path : string) (h : Head) (r : Remote)
    (ref : string * commit) (ahead behind : list commit) :
  path ∉ snapshot w ->
  fst (git_branch_for_post (Some path) false (cached w)) = Ret (Some h) ->
  name h <> "master" ->
  Git.remote (self_git w) = Ret r ->
  Git.remote_ref r (name h) = Some ref ->
  Git.iter_commits (self_git w) (fst ref) (name h) = Ret ahead ->
  length ahead = 2 ->
  Git.iter_commits (self_git w) (name h) (fst ref) = Ret behind ->
  length behind = 0 ->
  _kp_status path true BNone w =
  (Ret (Detailed SUBMITTED
          (Some (" - 2 commits ahead" +:+ " [On branch: " +:+ name h +:+ "]"))),
   cached w).
Proof.
  intros Hnin Hf Hm Hr Href Ha Ha2 Hb Hb0.
  rewrite (kp_status_submitted w path h r ref ahead behind) by assumption.
  rewrite Ha2, Hb0. reflexivity.
Qed.

(** The draft of [report_world]: commits 3 and 2 are ahead of origin's
    branch, none is behind; the branch is named like the document. *)
Lemma submitted_two_ahead_witness :
  _kp_status "2020/report.kp" true BNone report_world =
  (Ret (Detailed SUBMITTED
          (Some " - 2 commits ahead [On branch: 2020/report.kp]")),
   cached report_world).
Proof.
  apply (submitted_two_ahead report_world "2020/report.kp"
           (mkHead "2020/report.kp")
           (mkRemote "origin" (Some "git@git.example.com:team/repo.git")
                     [("origin/2020/report.kp", 1); ("origin/master", 0)])
           ("origin/2020/report.kp", 1) [3; 2] []); try reflexivity.
  - vm_compute. intros H. apply list_elem_of_In in H. simpl in H.
    intuition discriminate.
  - discriminate.
Defined.

(** C6, as stated, fails: in the scenario of the spec the annotation is not
    ["- 2 commits ahead"]; the code puts a space in front, and the branch
    note behind. *)
Lemma two_ahead_annotation_has_leading_space :
  Git.iter_commits report_repo "origin/2020/report.kp" "2020/report.kp" = Ret [3; 2]
  /\ Git.iter_commits report_repo "2020/report.kp" "origin/2020/report.kp" = Ret []
  /\ fst (_kp_status "2020/report.kp" true BNone report_world)
     = Ret (Detailed SUBMITTED
              (Some " - 2 commits ahead [On branch: 2020/report.kp]"))
  /\ fst (_kp_status "2020/report.kp" true BNone report_world)
     <> Ret (Detailed SUBMITTED (Some "- 2 commits ahead")).
Proof. repeat split; try reflexivity. vm_compute. discriminate. Qed.

(** C10: a directory at the post's path in the working tree settles
    [_kp_exists] with True, and the branches are not consulted; without one
    the answer is whether the path resolves to a branch.  A post can exist
    in this sense while [_kp_status] finds no post: [new/post.kp] in
    [untracked_world] is an untracked directory, published nowhere and on no
    branch. *)
Theorem exists_on_disk_first (w : World) (path : string) :
  (Os.isdir (fs w) (PosixPath.join (self_path w) path) = true ->
     _kp_exists path w = (Ret true, w))
  /\ (Os.isdir (fs w) (PosixPath.join (self_path w) path) = false ->
     _kp_exists path w =
     match fst (git_branch_for_post (Some path) false w) with
     | Ret (Some _) => (Ret true, w)
     | Ret None => (Ret false, w)
     | Raise e => (Raise e, w)
     end)
  /\ (_kp_exists "new/post.kp" untracked_world = (Ret true, untracked_world)
      /\ ("new/post.kp" ∉ snapshot untracked_world)
      /\ fst (git_branch_for_post (Some "new/post.kp") false untracked_world)
         = Ret None
      /\ fst (_kp_status "new/post.kp" false BNone untracked_world)
         = Ret (ExceptionObject (DocumentNotFound "new/post.kp"))).
Proof.
  split; [| split].
  - intros Hd. unfold _kp_exists, bind, ask. simpl. now rewrite Hd.
  - intros Hd. unfold _kp_exists. unfold bind at 1. unfold ask at 1. simpl.
    rewrite Hd. unfold bind.
    rewrite (read_only_run _ w (read_only_git_branch_for_post (Some path))).
    now destruct (fst (git_branch_for_post (Some path) false w)) as [[?|]|?].
  - repeat split; try reflexivity.
    vm_compute. intros H. apply list_elem_of_In in H. exact H.
Qed.

Lemma exists_on_disk_first_witness :
  _kp_exists "new/post.kp" untracked_world = (Ret true, untracked_world)
  /\ _kp_exists "ghost.kp" report_world = (Ret false, report_world).
Proof.
  split.
  - apply (proj1 (exists_on_disk_first untracked_world "new/post.kp")).
    reflexivity.
  - apply (proj1 (proj2 (exists_on_disk_first report_world "ghost.kp"))).
    reflexivity.
Defined.

(* ===================================================================== *)
(** ** AddSubmitWorkflow: prepare *)
(* ===================================================================== *)

Lemma lookup_ref_in {A} n (l : list (string * A)) c :
  Git.lookup_ref n l = Some c -> n ∈ fst <$> l.
Proof.
  unfold Git.lookup_ref. induction l as [|[m x] l IH]; simpl; [discriminate |].
  destruct (String.eqb_spec m n) as [->|Hne]; simpl.
  - intros _. apply list_elem_of_here.
  - intros H. apply list_elem_of_further. now apply IH.
Qed.

(** A checkout that succeeds leaves its branch as the active one. *)
Lemma Head_checkout_post h w w1 :
  Head_checkout h w = (Ret tt, w1) ->
  active_branch (self_git w1) = name h
  /\ name h ∈ Git.branch_names (self_git w1).
Proof.
  unfold Head_checkout, Git.checkout.
  destruct (Git.lookup_ref (name h) (branches (self_git w))) as [c|] eqn:Hl;
    [| discriminate].
  destruct (worktree_after (self_git w) c (fs w)) as [f|]; [| discriminate].
  intros H. injection H as <-. simpl. split; [reflexivity |].
  unfold Git.branch_names. simpl. now apply lookup_ref_in with c.
Qed.

(** When [git_checkout] returns a branch, that branch exists and is the
    one checked out. *)
Lemma git_checkout_post branch soft reset create w h w1 :
  git_checkout branch soft reset create w = (Ret h, w1) ->
  active_branch (self_git w1) = name h
  /\ name h ∈ Git.branch_names (self_git w1).
Proof.
  unfold git_checkout. destruct create; cbn [negb]; intros H.
  - destruct (bind_inv_Ret _ _ _ _ _ H) as (active & wa & _ & H1).
    destruct (bind_inv_Ret _ _ _ _ _ H1) as (b & wb & _ & H2).
    destruct (bind_inv_Ret _ _ _ _ _ H2) as (names & wc & _ & H3).
    destruct (bind_inv_Ret _ _ _ _ _ H3) as (obj & wd & _ & H4).
    destruct (bind_inv_Ret _ _ _ _ _ H4) as ([] & we & Hco & H5).
    injection H5 as E1 E2. subst. exact (Head_checkout_post _ _ _ Hco).
  - destruct (bind_inv_Ret _ _ _ _ _ H) as (obj & wd & _ & H4).
    destruct (bind_inv_Ret _ _ _ _ _ H4) as ([] & we & Hco & H5).
    injection H5 as E1 E2. subst. exact (Head_checkout_post _ _ _ Hco).
Qed.

(** The branch [git_checkout] settles on with [create]: the one asked for,
    unless the prompt was shown and answered with y, which keeps the branch
    that was checked out. *)
Lemma git_checkout_which branch soft reset w h w1 :
  git_checkout branch soft reset true w = (Ret h, w1) ->
  name h = branch
  \/ (soft = true
      /\ (active_branch (self_git w) ∉ ["master"; branch])
      /\ PyStr.endswith (active_branch (self_git w)) ".kp" = false
      /\ fst (prompt_until accept_yn (stdin w)) = Ret true
      /\ name h = active_branch (self_git w)).
Proof.
  unfold git_checkout. cbn [negb]. intros H.
  destruct (bind_inv_Ret _ _ _ _ _ H) as (active & wa & Ha & H1).
  unfold ask in Ha. injection Ha as <- <-.
  destruct (bind_inv_Ret _ _ _ _ _ H1) as (b & wb & Hb & H2).
  destruct (bind_inv_Ret _ _ _ _ _ H2) as (names & wc & _ & H3).
  destruct (bind_inv_Ret _ _ _ _ _ H3) as (obj & wd & Hobj & H4).
  destruct (bind_inv_Ret _ _ _ _ _ H4) as ([] & we & Hco & H5).
  injection H5 as E1 E2. subst obj.
  assert (Hname : name h = b).
  { destruct (reset || negb (bool_decide (b ∈ names))).
    - destruct (bind_inv_Ret _ _ _ _ _ Hobj) as (n & w2 & _ & Ho1).
      destruct (bind_inv_Ret _ _ _ _ _ Ho1) as (rh & w3 & _ & Ho2).
      destruct (bind_inv_Ret _ _ _ _ _ Ho2) as (target & w4 & _ & Ho3).
      unfold git_create_head, Git.create_head in Ho3. cbv beta iota in Ho3.
      now injection Ho3 as <- _.
    - unfold git_branch, bind, ask, ret, raise in Hobj.
      destruct (bool_decide (b ∈ Git.branch_names (self_git wc)));
        [| discriminate].
      now injection Hobj as <- _. }
  rewrite Hname. clear - Hb.
  destruct soft; cbn [andb] in Hb; [| injection Hb as <- _; now left].
  destruct (bool_decide (active_branch (self_git w) ∈ ["master"; branch])) eqn:Hin;
    cbn [negb andb] in Hb; [injection Hb as <- _; now left |].
  destruct (PyStr.endswith (active_branch (self_git w)) ".kp") eqn:Hkp;
    cbn [negb] in Hb; [injection Hb as <- _; now left |].
  destruct (bind_inv_Ret _ _ _ _ _ Hb) as (yes & wy & Hy & Hr).
  injection Hr as <- _.
  destruct yes; [right | now left].
  apply bool_decide_eq_false in Hin.
  repeat split; try assumption.
  unfold raw_input_until in Hy.
  destruct (prompt_until accept_yn (stdin w)) as [r0 [rest k]].
  now injection Hy as -> _.
Qed.

(** C2 (as amended): [_add_prepare] checks out the working branch first,
    creating or resetting it when needed, and looks at the disk afterwards.
    When the target is there at that point and [update] is false, it raises
    the assertion error; the world is the one the checkout left, with the
    working branch in place and checked out.  The working branch is the
    one named after the path, or the override; or the branch that was
    checked out, when it is neither master, nor that branch, nor a branch
    named like a post, and the user answers the prompt with y. *)
Theorem prepare_fails_after_checkout (w : World) (path : string)
    (branch : option string) (squash : bool) (h : Head) (w1 : World) :
  git_checkout (py_or branch path) true squash true w = (Ret h, w1) ->
  Os.exists_ (fs w1)
    (PosixPath.abspath (cwd (fs w)) (PosixPath.join (self_path w) path)) = true ->
  _add_prepare path false branch squash w = (Raise (DocumentAlreadyExists path), w1)
  /\ active_branch (self_git w1) = name h
  /\ name h ∈ Git.branch_names (self_git w1)
  /\ (name h = py_or branch path
      \/ ((active_branch (self_git w) ∉ ["master"; py_or branch path])
          /\ PyStr.endswith (active_branch (self_git w)) ".kp" = false
          /\ fst (prompt_until accept_yn (stdin w)) = Ret true
          /\ name h = active_branch (self_git w))).
Proof.
  intros Hco Hex. split; [| split; [| split]].
  - unfold _add_prepare. unfold bind at 1. unfold ask at 1.
    rewrite (bind_Ret _ _ w h w1 Hco).
    unfold bind, ask. rewrite Hex. reflexivity.
  - now apply git_checkout_post in Hco.
  - now apply git_checkout_post in Hco.
  - destruct (git_checkout_which _ _ _ _ _ _ Hco) as [E | (_ & H)];
      [now left | now right].
Qed.

(** Three runs with [new/post.kp] untracked on disk.  With only master in
    the repository, prepare creates the branch, checks it out, and then
    fails.  Asked to squash onto master, which is checked out, it resets
    master, and then fails.  On [a_fix], with the answer y, it stays on
    [a_fix], and then fails. *)
Lemma prepare_fails_after_checkout_witness :
  _add_prepare "new/post.kp" false None false untracked_world
  = (Raise (DocumentAlreadyExists "new/post.kp"),
     snd (git_checkout "new/post.kp" true false true untracked_world))
  /\ _add_prepare "new/post.kp" false (Some "master") true untracked_world
     = (Raise (DocumentAlreadyExists "new/post.kp"),
        snd (git_checkout "master" true true true untracked_world))
  /\ (_add_prepare "new/post.kp" false None false on_fix_world
      = (Raise (DocumentAlreadyExists "new/post.kp"),
         snd (git_checkout "new/post.kp" true false true on_fix_world))
      /\ active_branch
           (self_git (snd (git_checkout "new/post.kp" true false true on_fix_world)))
         = "a_fix").
Proof.
  split; [| split].
  - refine (proj1 (prepare_fails_after_checkout untracked_world "new/post.kp"
                     None false (mkHead "new/post.kp")
                     (snd (git_checkout "new/post.kp" true false true untracked_world))
                     _ _)); vm_compute; reflexivity.
  - refine (proj1 (prepare_fails_after_checkout untracked_world "new/post.kp"
                     (Some "master") true (mkHead "master")
                     (snd (git_checkout "master" true true true untracked_world))
                     _ _)); vm_compute; reflexivity.
  - assert (H : _add_prepare "new/post.kp" false None false on_fix_world
                = (Raise (DocumentAlreadyExists "new/post.kp"),
                   snd (git_checkout "new/post.kp" true false true on_fix_world))
                /\ active_branch
                     (self_git (snd (git_checkout "new/post.kp" true false true
                                                  on_fix_world)))
                   = name (mkHead "a_fix")).
    { destruct (prepare_fails_after_checkout on_fix_world "new/post.kp"
                  None false (mkHead "a_fix")
                  (snd (git_checkout "new/post.kp" true false true on_fix_world)))
        as (H1 & H2 & _); [vm_compute; reflexivity | vm_compute; reflexivity |].
      split; [exact H1 | exact H2]. }
    exact H.
Defined.

(** C2, as stated, fails: the target directory is on disk, [update] is
    false, the call raises the assertion error, and by then a branch has
    been created and checked out. *)
Lemma prepare_mutates_before_failing :
  Os.exists_ (fs untracked_world) "/repo/new/post.kp" = true
  /\ fst (_add_prepare "new/post.kp" false None false untracked_world)
     = Raise (DocumentAlreadyExists "new/post.kp")
  /\ Git.branch_names (self_git untracked_world) = ["master"]
  /\ active_branch (self_git untracked_world) = "master"
  /\ Git.branch_names
       (self_git (snd (_add_prepare "new/post.kp" false None false untracked_world)))
     = ["master"; "new/post.kp"]
  /\ active_branch
       (self_git (snd (_add_prepare "new/post.kp" false None false untracked_world)))
     = "new/post.kp".
Proof. repeat split; reflexivity. Qed.

(* ===================================================================== *)
(** ** RepositoryHandle: bootstrap *)
(* ===================================================================== *)

Lemma within_refl q : Os.within q q = true.
Proof. unfold Os.within. now rewrite String.eqb_refl. Qed.

(** What [shutil.rmtree] leaves behind when it succeeds. *)
Lemma rmtree_removes f p f' :
  Os.rmtree f p = (Ret tt, f') ->
  cwd f' = cwd f
  /\ forall x, Os.within (Os.resolve f p) x = true ->
               (x ∉ dirs f') /\ files f' !! x = None.
Proof.
  unfold Os.rmtree. destruct (Os.isdir f p); simpl; [| discriminate].
  intros H. injection H as <-. simpl. split; [reflexivity |].
  intros x Hx. split.
  - intros Hin. apply elem_of_filter in Hin as [Hf _]. congruence.
  - apply map_lookup_filter_None. right. intros v _. simpl. congruence.
Qed.

Lemma rmtree_fails_without_dir f p e f' :
  Os.rmtree f p = (Raise e, f') -> f' = f /\ Os.isdir f p = false.
Proof.
  unfold Os.rmtree. destruct (Os.isdir f p); simpl; [discriminate |].
  intros H. injection H as _ <-. auto.
Qed.

Lemma not_isdir_after f p f' :
  cwd f' = cwd f -> Os.resolve f p ∉ dirs f' -> Os.isdir f' p = false.
Proof.
  intros Hc Hn. unfold Os.isdir, Os.resolve in *. rewrite Hc.
  rewrite bool_decide_eq_false_2 by exact Hn. apply andb_false_r.
Qed.

(** When a step of the bootstrap raises, [__repo_init] raises too and no
    directory is left at the path; when the directory had been created by
    then, the tree below it is deleted, nothing exists at the path or under
    it afterwards, and the exception raised is the original one. *)
Lemma bootstrap_all_or_nothing (env : Bootstrap) (path : string)
    (w w1 : World) (e : exn) :
  __repo_init_body env path w = (Raise e, w1) ->
  (exists e', fst (__repo_init env path w) = Raise e')
  /\ Os.isdir (fs (snd (__repo_init env path w))) path = false
  /\ (Os.isdir (fs w1) path = true ->
      fst (__repo_init env path w) = Raise e
      /\ Os.exists_ (fs (snd (__repo_init env path w))) path = false
      /\ forall x, Os.within (Os.resolve (fs w1) path) x = true ->
           (x ∉ dirs (fs (snd (__repo_init env path w))))
           /\ files (fs (snd (__repo_init env path w))) !! x = None).
Proof.
  intros Hbody. unfold __repo_init, try_except. rewrite Hbody.
  unfold bind, on_fs, raise.
  destruct (Os.rmtree (fs w1) path) as [[[]|e'] f'] eqn:Hrm; simpl.
  - destruct (rmtree_removes _ _ _ Hrm) as [Hcwd Hgone].
    destruct (Hgone _ (within_refl _)) as [Hd Hf].
    assert (Hnd : Os.isdir f' path = false) by now apply not_isdir_after with (fs w1).
    split; [now exists e |]. split; [exact Hnd |].
    intros _. split; [reflexivity |]. split; [| exact Hgone].
    unfold Os.exists_. rewrite Hnd. simpl.
    unfold Os.isfile, Os.resolve in *. rewrite Hcwd, Hf.
    rewrite bool_decide_eq_false_2 by (intros [? ?]; discriminate).
    apply andb_false_r.
  - destruct (rmtree_fails_without_dir _ _ _ _ Hrm) as [-> Hnd].
    split; [now exists e' |]. split; [exact Hnd |].
    intros Hd. congruence.
Qed.

(** A bootstrap at [/srv/kb] whose commit fails after the directory and
    the scaffold files are there. *)
Lemma bootstrap_commit_failure :
  fst (__repo_init commit_fails "/srv/kb" bare_world)
    = Raise (GitCommandError "commit failed")
  /\ Os.exists_ (fs (snd (__repo_init commit_fails "/srv/kb" bare_world))) "/srv/kb"
     = false.
Proof.
  destruct (bootstrap_all_or_nothing commit_fails "/srv/kb" bare_world
              (snd (__repo_init_body commit_fails "/srv/kb" bare_world))
              (GitCommandError "commit failed") eq_refl) as (_ & _ & H).
  destruct (H eq_refl) as (H1 & H2 & _).
  split; [exact H1 | exact H2].
Qed.

(** C3 on the code: when a step raises while there is no directory at the
    path (init could not create it), the cleanup itself raises: what leaves
    [__repo_init] is the OSError of [shutil.rmtree], and the original
    exception is lost.  The cleanup of [_add_cleanup] is guarded against
    this; the one of [__repo_init] is not. *)
Theorem bootstrap_cleanup_masks_failure (env : Bootstrap) (path : string)
    (w w1 : World) (e : exn) :
  __repo_init_body env path w = (Raise e, w1) ->
  Os.isdir (fs w1) path = false ->
  __repo_init env path w = (Raise (OSError "No such file or directory"), w1).
Proof.
  intros Hbody Hd. unfold __repo_init, try_except. rewrite Hbody.
  unfold bind, on_fs, Os.rmtree. rewrite Hd. simpl. now destruct w1.
Qed.

(** The parent of [/srv/kb] refuses the new directory: init raises
    "Permission denied", the caller sees "No such file or directory". *)
Lemma bootstrap_cleanup_masks_failure_witness :
  fst (__repo_init_body init_denied "/srv/kb" bare_world)
    = Raise (OSError "Permission denied")
  /\ __repo_init init_denied "/srv/kb" bare_world
     = (Raise (OSError "No such file or directory"), bare_world).
Proof.
  split; [reflexivity |].
  apply (bootstrap_cleanup_masks_failure init_denied "/srv/kb" bare_world
           bare_world (OSError "Permission denied")); reflexivity.
Defined.


(* ===================================================================== *)
(** ** RefStore *)
(* ===================================================================== *)

Lemma lstrip_no_space s : no_space s = true -> PyStr.lstrip s = s.
Proof.
  destruct s as [|a s]; simpl; [reflexivity |].
  intros H. apply andb_true_iff in H as [Ha _].
  apply negb_true_iff in Ha. now rewrite Ha.
Qed.

Lemma rstrip_no_space s : no_space s = true -> PyStr.rstrip s = s.
Proof.
  induction s as [|a s IH]; simpl; [reflexivity |].
  intros H. apply andb_true_iff in H as [Ha Hs].
  apply negb_true_iff in Ha. rewrite (IH Hs), Ha. now destruct s.
Qed.

Lemma strip_no_space s : no_space s = true -> PyStr.strip s = s.
Proof.
  intros H. unfold PyStr.strip. rewrite lstrip_no_space by exact H.
  now apply rstrip_no_space.
Qed.

Lemma no_space_uint d : no_space (NilEmpty.string_of_uint d) = true.
Proof. induction d; simpl; auto. Qed.

Lemma no_space_int d : no_space (NilZero.string_of_int d) = true.
Proof.
  destruct d as [u|u]; simpl; unfold NilZero.string_of_uint;
    destruct u; simpl; auto using no_space_uint.
Qed.

(** a decimal numeral never starts with a plus sign *)
Lemma int_of_str_numeral d :
  PyStr.int_of_str (NilZero.string_of_int d)
  = option_map Z.of_int (NilZero.int_of_string (NilZero.string_of_int d)).
Proof.
  unfold PyStr.int_of_str. rewrite strip_no_space by apply no_space_int.
  destruct d as [u|u]; simpl; unfold NilZero.string_of_uint;
    destruct u; reflexivity.
Qed.

(** [int(str(n)) == n] *)
Lemma int_of_str_of_int n : PyStr.int_of_str (PyStr.str_of_int n) = Some n.
Proof.
  unfold PyStr.str_of_int. rewrite int_of_str_numeral.
  rewrite NilZero.isi.
  - simpl. now rewrite DecimalZ.of_to.
  - destruct n; simpl; try discriminate.
    intros H. injection H as H. now apply Unsigned.to_uint_nonnil in H.
  - destruct n; simpl; try discriminate.
    intros H. injection H as H. now apply Unsigned.to_uint_nonnil in H.
Qed.

Lemma read_file_error f p e : Os.read_file f p = Raise e -> exists m, e = IOError m.
Proof.
  unfold Os.read_file. destruct (String.eqb p "").
  { intros H. injection H as <-. eauto. }
  destruct (bool_decide _).
  { intros H. injection H as <-. eauto. }
  destruct (files f !! _); [discriminate |].
  intros H. injection H as <-. eauto.
Qed.

Lemma read_file_absent f p : Os.exists_ f p = false -> exists m, Os.read_file f p = Raise (IOError m).
Proof.
  unfold Os.exists_, Os.isdir, Os.isfile, Os.read_file. intros H.
  destruct (String.eqb p ""); [eauto |]. simpl in H.
  apply orb_false_iff in H as [Hd Hf]. rewrite Hd.
  apply bool_decide_eq_false in Hf.
  destruct (files f !! Os.resolve f p); [| eauto].
  exfalso. apply Hf. eauto.
Qed.

(** A write that succeeds leaves a file that reads back as written. *)
Lemma write_file_read f p data f' :
  Os.write_file f p data = (Ret tt, f') -> Os.read_file f' p = Ret data.
Proof.
  unfold Os.write_file, Os.read_file, Os.resolve.
  destruct (String.eqb p ""); [discriminate |].
  destruct (bool_decide (_ ∈ dirs f)) eqn:Hd; [discriminate |].
  destruct (negb _); [discriminate |].
  intros H. injection H as <-. simpl. rewrite Hd.
  now rewrite lookup_insert_eq.
Qed.

Lemma on_fs_inv step w w' :
  on_fs step w = (Ret tt, w') ->
  step (fs w) = (Ret tt, fs w') /\ self_path w' = self_path w.
Proof.
  unfold on_fs. destruct (step (fs w)) as [[[]|e] f] eqn:E; [| discriminate].
  intros H. injection H as <-. auto.
Qed.

(** What [_kp_get_revision] does, case by case; it never changes the world. *)
Lemma kp_get_revision_cases w path :
  _kp_get_revision path w =
  match Os.read_file (fs w) (revision_file w path) with
  | Ret text =>
      match PyStr.int_of_str text with
      | Some n => (Ret n, w)
      | None => (Raise (ValueError ("invalid literal for int() with base 10: '"
                                      +:+ text +:+ "'")), w)
      end
  | Raise _ => (Ret 0%Z, w)
  end.
Proof.
  unfold _kp_get_revision, try_except, bind, _kp_read_ref, ask_result,
    revision_file.
  destruct (Os.read_file _ _) as [text|e] eqn:E.
  - now destruct (PyStr.int_of_str text).
  - apply read_file_error in E as [m ->]. reflexivity.
Qed.

(** A call of [_kp_write_ref] that returns gives None, keeps [self.path],
    and leaves the data in the file the reference names. *)
Lemma kp_write_ref_inv w w1 path reference data v :
  _kp_write_ref path reference data w = (Ret v, w1) ->
  v = PyNone
  /\ self_path w1 = self_path w
  /\ Os.read_file (fs w1) (PosixPath.join3 (self_path w) path reference) = Ret data.
Proof.
  unfold _kp_write_ref. intros H.
  destruct (bind_inv_Ret _ _ _ _ _ H) as (ref_path & wa & Ha & H1).
  injection Ha as <- <-. cbv zeta in H1.
  destruct (bind_inv_Ret _ _ _ _ _ H1) as (there & wb & Hb & H2).
  injection Hb as _ <-.
  destruct (bind_inv_Ret _ _ _ _ _ H2) as ([] & wc & Hc & H3).
  destruct (bind_inv_Ret _ _ _ _ _ H3) as ([] & wd & Hd & H4).
  injection H4 as <- <-.
  apply on_fs_inv in Hd as [Hw Hp].
  assert (Hpc : self_path wc = self_path w).
  { destruct (negb there).
    - now apply on_fs_inv in Hc as [_ ?].
    - now injection Hc as <-. }
  split; [reflexivity |]. split; [congruence |].
  exact (write_file_read _ _ _ _ Hw).
Qed.

(** C8: once [_kp_write_ref] has returned, [_kp_read_ref] on the same path
    and reference returns exactly the data written. *)
Theorem write_then_read (w w1 : World) (path reference data : string)
    (v : py_value) :
  _kp_write_ref path reference data w = (Ret v, w1) ->
  _kp_read_ref path reference w1 = (Ret data, w1).
Proof.
  intros H.
  destruct (kp_write_ref_inv _ _ _ _ _ _ H) as (_ & Hp & Hread).
  unfold _kp_read_ref, ask_result.
  rewrite Hp, Hread. reflexivity.
Qed.

(** Writing [knowledge.md] of a post that has no directory yet. *)
Lemma write_then_read_witness :
  _kp_read_ref "2020/report.kp" "knowledge.md"
    (snd (_kp_write_ref "2020/report.kp" "knowledge.md" "# Report" report_world))
  = (Ret "# Report",
     snd (_kp_write_ref "2020/report.kp" "knowledge.md" "# Report" report_world)).
Proof.
  apply (write_then_read report_world _ "2020/report.kp" "knowledge.md"
           "# Report" PyNone).
  reflexivity.
Defined.

Lemma kp_get_revision_read_only w path r w' :
  _kp_get_revision path w = (r, w') -> w' = w.
Proof.
  rewrite kp_get_revision_cases.
  destruct (Os.read_file _ _) as [text|e].
  - destruct (PyStr.int_of_str text); intros H; now injection H as _ <-.
  - intros H; now injection H as _ <-.
Qed.

(** One call of [_kp_new_revision] that returns: the counter read, and the
    counter found afterwards. *)
Lemma kp_new_revision_step w path v w1 :
  _kp_new_revision path w = (Ret v, w1) ->
  v = PyNone
  /\ exists current,
       _kp_get_revision path w = (Ret current, w)
       /\ _kp_read_ref path "REVISION" w1
          = (Ret (PyStr.str_of_int (current + 1)), w1)
       /\ _kp_get_revision path w1 = (Ret (current + 1)%Z, w1).
Proof.
  unfold _kp_new_revision. intros H.
  destruct (bind_inv_Ret _ _ _ _ _ H) as (current & wa & Ha & H1).
  pose proof (kp_get_revision_read_only _ _ _ _ Ha) as ->.
  destruct (bind_inv_Ret _ _ _ _ _ H1) as (x & wb & Hb & H2).
  injection H2 as <- <-. split; [reflexivity |].
  exists current. split; [exact Ha |].
  destruct (kp_write_ref_inv _ _ _ _ _ _ Hb) as (_ & Hp & Hread).
  split.
  - unfold _kp_read_ref, ask_result. now rewrite Hp, Hread.
  - rewrite kp_get_revision_cases. unfold revision_file.
    now rewrite Hp, Hread, int_of_str_of_int.
Qed.

(** C7 (as amended): a call of [_kp_new_revision] that returns has read the
    current counter (0 when there is no REVISION file), has stored the
    decimal text of the counter plus one, and returns None; the next call
    stores the counter plus two. *)
Theorem next_revision_increments (w w1 : World) (path : string) (v : py_value) :
  _kp_new_revision path w = (Ret v, w1) ->
  v = PyNone
  /\ exists current,
       _kp_get_revision path w = (Ret current, w)
       /\ (Os.exists_ (fs w) (revision_file w path) = false -> current = 0%Z)
       /\ _kp_read_ref path "REVISION" w1
          = (Ret (PyStr.str_of_int (current + 1)), w1)
       /\ (forall v2 w2,
             _kp_new_revision path w1 = (Ret v2, w2) ->
             v2 = PyNone
             /\ _kp_read_ref path "REVISION" w2
                = (Ret (PyStr.str_of_int (current + 2)), w2)).
Proof.
  intros H.
  destruct (kp_new_revision_step _ _ _ _ H) as (Hv & current & Hget & Hread & Hnext).
  split; [exact Hv |]. exists current.
  split; [exact Hget |]. split; [| split; [exact Hread |]].
  - intros Habs. apply read_file_absent in Habs as [m Hm].
    rewrite kp_get_revision_cases, Hm in Hget. now injection Hget as <-.
  - intros v2 w2 H2.
    destruct (kp_new_revision_step _ _ _ _ H2) as (Hv2 & c2 & Hget2 & Hread2 & _).
    split; [exact Hv2 |].
    rewrite Hnext in Hget2. injection Hget2 as <-.
    now replace (current + 2)%Z with (current + 1 + 1)%Z by lia.
Qed.

(** Two calls on a post that has no REVISION file: the file then holds
    ["1"], then ["2"]. *)
Lemma next_revision_increments_witness :
  let w1 := snd (_kp_new_revision "2020/report.kp" report_world) in
  let w2 := snd (_kp_new_revision "2020/report.kp" w1) in
  _kp_get_revision "2020/report.kp" report_world = (Ret 0%Z, report_world)
  /\ _kp_read_ref "2020/report.kp" "REVISION" w1 = (Ret "1", w1)
  /\ _kp_read_ref "2020/report.kp" "REVISION" w2 = (Ret "2", w2).
Proof.
  intros w1 w2.
  destruct (next_revision_increments report_world w1 "2020/report.kp" PyNone
              eq_refl) as (_ & current & Hget & Habs & Hread & Hnext).
  pose proof (Habs eq_refl) as ->.
  destruct (Hnext PyNone w2 eq_refl) as [_ Hread2].
  split; [exact Hget | split; [exact Hread | exact Hread2]].
Defined.

(** C7, as stated, fails: the call returns None, not an int. *)
Lemma next_revision_returns_none :
  fst (_kp_new_revision "2020/report.kp" report_world) = Ret PyNone
  /\ forall n, fst (_kp_new_revision "2020/report.kp" report_world) <> Ret (PyInt n).
Proof. split; [reflexivity | intros n; vm_compute; discriminate]. Qed.

(* ===================================================================== *)
(** ** Strings: suffixes, splitting and joining *)
(* ===================================================================== *)

Lemma string_app_cons x a b : String x a +:+ b = String x (a +:+ b).
Proof. reflexivity. Qed.

Lemma string_app_nil b : "" +:+ b = b.
Proof. reflexivity. Qed.

Ltac str_simpl :=
  repeat (progress (simpl; rewrite ?string_app_cons, ?string_app_nil)).

Lemma length_app_string a b :
  String.length (a +:+ b) = String.length a + String.length b.
Proof. induction a as [|c a IH]; str_simpl; [reflexivity | now rewrite IH]. Qed.

Lemma app_string_assoc a b c : (a +:+ b) +:+ c = a +:+ (b +:+ c).
Proof. induction a as [|x a IH]; str_simpl; [reflexivity | now rewrite IH]. Qed.

Lemma app_string_empty_r a : a +:+ "" = a.
Proof. induction a as [|x a IH]; str_simpl; [reflexivity | now rewrite IH]. Qed.

Lemma substring_all s : String.substring 0 (String.length s) s = s.
Proof. induction s as [|c s IH]; simpl; [reflexivity | now rewrite IH]. Qed.

Lemma substring_skip pre p :
  String.substring (String.length pre) (String.length p) (pre +:+ p) = p.
Proof.
  induction pre as [|c pre IH]; str_simpl; [apply substring_all | exact IH].
Qed.

Lemma substring_split s i :
  i <= String.length s ->
  s = String.substring 0 i s +:+ String.substring i (String.length s - i) s.
Proof.
  revert i. induction s as [|c s IH]; intros [|i] Hi; simpl in *.
  - reflexivity.
  - lia.
  - rewrite string_app_nil. now rewrite substring_all.
  - rewrite string_app_cons. f_equal. apply IH. lia.
Qed.

(** [s.endswith(p)] says that [s] is some text followed by [p]. *)
Lemma endswith_spec s p :
  PyStr.endswith s p = true <-> exists pre, s = pre +:+ p.
Proof.
  unfold PyStr.endswith. split.
  - intros H. apply andb_true_iff in H as [Hle Heq].
    apply Nat.leb_le in Hle. apply String.eqb_eq in Heq.
    exists (String.substring 0 (String.length s - String.length p) s).
    pose proof (substring_split s (String.length s - String.length p)) as Hs.
    replace (String.length s - (String.length s - String.length p))
      with (String.length p) in Hs by lia.
    rewrite Heq in Hs. apply Hs. lia.
  - intros [pre ->]. rewrite length_app_string.
    apply andb_true_iff. split; [apply Nat.leb_le; lia |].
    replace (String.length pre + String.length p - String.length p)
      with (String.length pre) by lia.
    rewrite substring_skip. apply String.eqb_refl.
Qed.

Lemma split_not_nil c s : PyStr.split c s <> [].
Proof.
  destruct s as [|a s]; simpl; [discriminate |].
  destruct (Ascii.eqb a c); [discriminate |].
  destruct (PyStr.split c s); discriminate.
Qed.

(** joining what was split gives the text back *)
Lemma join_split c s : PyStr.join (String c "") (PyStr.split c s) = s.
Proof.
  unfold PyStr.join. induction s as [|a s IH]; simpl; [reflexivity |].
  pose proof (split_not_nil c s) as Hn.
  destruct (PyStr.split c s) as [|x xs] eqn:E; [contradiction |].
  destruct (Ascii.eqb_spec a c) as [->|Hne].
  - change (String.concat (String c "") ("" :: x :: xs))
      with (String c (String.concat (String c "") (x :: xs))).
    now rewrite IH.
  - destruct xs as [|y ys].
    + simpl in *. now rewrite IH.
    + change (String.concat (String c "") (String a x :: y :: ys))
        with (String a (String.concat (String c "") (x :: y :: ys))).
      now rewrite IH.
Qed.

(** no part of a split holds the separator *)
Lemma split_parts c s : Forall (fun x => lacks c x = true) (PyStr.split c s).
Proof.
  induction s as [|a s IH]; simpl.
  - repeat constructor.
  - destruct (Ascii.eqb a c) eqn:E.
    + constructor; [reflexivity | exact IH].
    + destruct (PyStr.split c s) as [|x xs]; [repeat constructor; simpl; now rewrite E |].
      inversion IH as [|? ? Hx Hxs]; subst.
      constructor; [simpl; now rewrite E, Hx | exact Hxs].
Qed.

Lemma split_lacks c s : lacks c s = true -> PyStr.split c s = [s].
Proof.
  induction s as [|a s IH]; simpl; [reflexivity |].
  intros H. apply andb_true_iff in H as [Ha Hs].
  apply negb_true_iff in Ha. rewrite Ha, (IH Hs). reflexivity.
Qed.

Lemma split_app c a b :
  lacks c a = true ->
  PyStr.split c (a +:+ String c b) = a :: PyStr.split c b.
Proof.
  induction a as [|x a IH]; str_simpl.
  - intros _. now rewrite Ascii.eqb_refl.
  - intros H. apply andb_true_iff in H as [Hx Ha].
    apply negb_true_iff in Hx. rewrite Hx, (IH Ha). reflexivity.
Qed.

(** splitting what was joined gives the parts back *)
Lemma split_join c l :
  l <> [] -> Forall (fun x => lacks c x = true) l ->
  PyStr.split c (PyStr.join (String c "") l) = l.
Proof.
  unfold PyStr.join. induction l as [|x l IH]; [contradiction |].
  intros _ Hall. inversion Hall as [|? ? Hx Hl]; subst.
  destruct l as [|y l].
  - simpl. now apply split_lacks.
  - change (String.concat (String c "") (x :: y :: l))
      with (x +:+ String c (String.concat (String c "") (y :: l))).
    rewrite split_app by exact Hx. f_equal. now apply IH.
Qed.

Lemma join_cons sep x y l :
  PyStr.join sep (x :: y :: l) = x +:+ sep +:+ PyStr.join sep (y :: l).
Proof. reflexivity. Qed.

Lemma join_app sep l1 l2 :
  l1 <> [] -> l2 <> [] ->
  PyStr.join sep (l1 ++ l2) = PyStr.join sep l1 +:+ sep +:+ PyStr.join sep l2.
Proof.
  induction l1 as [|y l IH]; [contradiction |]. intros _ H2.
  destruct l as [|z l].
  - destruct l2 as [|u l2]; [contradiction |]. reflexivity.
  - change ((y :: z :: l) ++ l2) with (y :: z :: (l ++ l2)).
    rewrite !join_cons.
    change (z :: l ++ l2) with ((z :: l) ++ l2).
    rewrite IH by (discriminate || assumption).
    now rewrite !app_string_assoc.
Qed.

(* ===================================================================== *)
(** ** Post paths: [__get_path_from_ref] and [git_local_posts] *)
(* ===================================================================== *)

(** where the loop breaks: at the first part that ends in .kp *)
Lemma first_kp_spec refs i :
  first_kp refs = Some i ->
  exists r, refs !! i = Some r /\ PyStr.endswith r ".kp" = true.
Proof.
  revert i. induction refs as [|x refs IH]; simpl; [discriminate |].
  intros i. destruct (PyStr.endswith x ".kp") eqn:E.
  - intros H. injection H as <-. now exists x.
  - destruct (first_kp refs) as [j|]; [| discriminate].
    intros H. injection H as <-. destruct (IH j eq_refl) as (r & Hr & He).
    now exists r.
Qed.

Lemma first_kp_app l1 l2 i : first_kp l1 = Some i -> first_kp (l1 ++ l2) = Some i.
Proof.
  revert i. induction l1 as [|x l1 IH]; simpl; [discriminate |].
  intros i. destruct (PyStr.endswith x ".kp"); [trivial |].
  destruct (first_kp l1) as [j|]; [| discriminate].
  intros H. injection H as <-. now rewrite (IH j eq_refl).
Qed.

Lemma first_kp_take refs i :
  first_kp refs = Some i -> first_kp (take (i + 1) refs) = Some i.
Proof.
  revert i. induction refs as [|x refs IH]; simpl; [discriminate |].
  intros i. destruct (PyStr.endswith x ".kp") eqn:E.
  - intros H. injection H as <-. simpl. now rewrite E.
  - destruct (first_kp refs) as [j|]; [| discriminate].
    intros H. injection H as <-. simpl. rewrite E. now rewrite (IH j eq_refl).
Qed.

Lemma split_app_any c a b :
  PyStr.split c (a +:+ String c b) = PyStr.split c a ++ PyStr.split c b.
Proof.
  induction a as [|x a IH]; str_simpl.
  - now rewrite Ascii.eqb_refl.
  - rewrite IH. destruct (Ascii.eqb x c); [reflexivity |].
    pose proof (split_not_nil c a) as Hn.
    now destruct (PyStr.split c a).
Qed.

Lemma Forall_take {A} (P : A -> Prop) n l : Forall P l -> Forall P (take n l).
Proof.
  revert n. induction l as [|x l IH]; intros [|n] H; simpl; auto.
  inversion H; subst. constructor; auto.
Qed.

(** what [__get_path_from_ref] returns, in terms of the parts of the path *)
Lemma get_path_from_ref_parts ref p :
  __get_path_from_ref ref = Some p ->
  exists i r,
    first_kp (PyStr.split "/" ref) = Some i
    /\ PyStr.split "/" ref !! i = Some r
    /\ PyStr.endswith r ".kp" = true
    /\ p = PyStr.join "/" (take (i + 1) (PyStr.split "/" ref))
    /\ PyStr.split "/" p = take (i + 1) (PyStr.split "/" ref).
Proof.
  unfold __get_path_from_ref.
  destruct (first_kp (PyStr.split "/" ref)) as [i|] eqn:E; [| discriminate].
  intros H. injection H as <-.
  destruct (first_kp_spec _ _ E) as (r & Hr & He).
  exists i, r. repeat split; try assumption.
  apply split_join.
  - rewrite Nat.add_1_r. rewrite (take_S_r _ _ _ Hr).
    now destruct (take i (PyStr.split "/" ref)).
  - apply Forall_take, split_parts.
Qed.

Lemma path_from_ref_encloses_parts ref p :
  __get_path_from_ref ref = Some p -> PyStr.endswith p ".kp" = true.
Proof.
  intros H. destruct (get_path_from_ref_parts _ _ H) as (i & r & Hi & Hr & He & -> & _).
  rewrite Nat.add_1_r, (take_S_r _ _ _ Hr).
  apply endswith_spec in He as [pre ->].
  apply endswith_spec.
  destruct (take i (PyStr.split "/" ref)) as [|x l] eqn:Et.
  - now exists pre.
  - exists (PyStr.join "/" (x :: l) +:+ "/" +:+ pre).
    rewrite join_app by discriminate.
    change (PyStr.join "/" [pre +:+ ".kp"]) with (pre +:+ ".kp").
    now rewrite !app_string_assoc.
Qed.

(** X1: the path returned for a changed file ends in .kp and is the file's
    own path or a directory above it. *)
Theorem path_from_ref_encloses (ref p : string) :
  __get_path_from_ref ref = Some p ->
  PyStr.endswith p ".kp" = true
  /\ (ref = p \/ exists rest, ref = p +:+ "/" +:+ rest).
Proof.
  intros H. split; [now apply path_from_ref_encloses_parts with ref |].
  destruct (get_path_from_ref_parts _ _ H) as (i & r & Hi & Hr & He & -> & _).
  assert (Href : ref = PyStr.join "/" (take (i + 1) (PyStr.split "/" ref)
                                          ++ drop (i + 1) (PyStr.split "/" ref))).
    { rewrite take_drop. symmetry. apply join_split. }
    remember (PyStr.split "/" ref) as comps eqn:Ec. clear Ec.
    rewrite Href.
    destruct (drop (i + 1) comps) as [|y l] eqn:Ed.
    + left. now rewrite app_nil_r.
    + right. exists (PyStr.join "/" (y :: l)).
      apply join_app; [| discriminate].
      rewrite Nat.add_1_r, (take_S_r _ _ _ Hr).
      now destruct (take i comps).
Qed.

Lemma path_from_ref_encloses_witness :
  PyStr.endswith "2020/report.kp" ".kp" = true
  /\ ("2020/report.kp/images/plot.png" = "2020/report.kp"
      \/ exists rest, "2020/report.kp/images/plot.png" = "2020/report.kp" +:+ "/" +:+ rest).
Proof.
  apply (path_from_ref_encloses "2020/report.kp/images/plot.png" "2020/report.kp").
  reflexivity.
Defined.

(** X2: the post a file is attributed to is attributed to itself, and so is
    every path below it: all the files of a post directory count for the
    same post. *)
Theorem path_from_ref_stable (ref p : string) :
  __get_path_from_ref ref = Some p ->
  __get_path_from_ref p = Some p
  /\ forall rest, __get_path_from_ref (p +:+ "/" +:+ rest) = Some p.
Proof.
  intros H. destruct (get_path_from_ref_parts _ _ H) as (i & r & Hi & Hr & He & Hp & Hs).
  assert (Hlen : length (take (i + 1) (PyStr.split "/" ref)) = i + 1).
  { rewrite length_take. apply lookup_lt_Some in Hr. lia. }
  split.
  - unfold __get_path_from_ref. rewrite Hs, (first_kp_take _ _ Hi).
    now rewrite take_idemp, Hp.
  - intros rest. unfold __get_path_from_ref.
    change (p +:+ "/" +:+ rest) with (p +:+ String "/" rest).
    rewrite split_app_any, Hs.
    rewrite (first_kp_app _ _ _ (first_kp_take _ _ Hi)).
    rewrite take_app_length' by (symmetry; exact Hlen).
    now rewrite Hp.
Qed.

Lemma path_from_ref_stable_witness :
  __get_path_from_ref "a/b.kp" = Some "a/b.kp"
  /\ forall rest, __get_path_from_ref ("a/b.kp" +:+ "/" +:+ rest) = Some "a/b.kp".
Proof. apply (path_from_ref_stable "a/b.kp/c.kp/d" "a/b.kp"). reflexivity. Defined.

Lemma for_each_Ret {A B} (body : A -> M B) (P : B -> Prop) :
  (forall x w y w', body x w = (Ret y, w') -> P y) ->
  forall l w ys w', for_each body l w = (Ret ys, w') -> Forall P ys.
Proof.
  intros Hb. induction l as [|x l IH]; simpl; intros w ys w' H.
  - injection H as <- _. constructor.
  - destruct (bind_inv_Ret _ _ _ _ _ H) as (y & w1 & Hy & H1).
    destruct (bind_inv_Ret _ _ _ _ _ H1) as (rest & w2 & Hrest & H2).
    injection H2 as <- _. constructor; [eapply Hb; eassumption | eapply IH; eassumption].
Qed.

Lemma for_keep_Ret {A} (test : A -> M bool) (Q : A -> Prop) :
  (forall x w w', test x w = (Ret true, w') -> Q x) ->
  forall l w ys w', for_keep test l w = (Ret ys, w') -> Forall Q ys.
Proof.
  intros Hb. induction l as [|x l IH]; simpl; intros w ys w' H.
  - injection H as <- _. constructor.
  - destruct (bind_inv_Ret _ _ _ _ _ H) as (keep & w1 & Hk & H1).
    destruct (bind_inv_Ret _ _ _ _ _ H1) as (rest & w2 & Hrest & H2).
    injection H2 as <- _. specialize (IH _ _ _ Hrest).
    destruct keep; [constructor; [eapply Hb; eassumption | exact IH] | exact IH].
Qed.

Lemma git_local_posts_kp bs w posts w' :
  git_local_posts bs w = (Ret posts, w') ->
  Forall (fun p => PyStr.endswith p ".kp" = true) posts.
Proof.
  unfold git_local_posts. intros H.
  destruct (bind_inv_Ret _ _ _ _ _ H) as (names & w1 & _ & H1).
  destruct (bind_inv_Ret _ _ _ _ _ H1) as (pl & w2 & Hpl & H2).
  injection H2 as <- _.
  assert (Hall : Forall (Forall (fun p => PyStr.endswith p ".kp" = true)) pl).
  { revert Hpl. apply for_each_Ret. intros branch wa y wb Hy.
    destruct (bind_inv_Ret _ _ _ _ _ Hy) as (diffs & wc & _ & Hr).
    injection Hr as <- _. apply Forall_forall. intros p Hp.
    apply list_elem_of_omap in Hp as (ref & _ & Hp).
    now apply path_from_ref_encloses_parts in Hp. }
  apply Forall_forall. intros p Hp.
  apply elem_of_remove_dups, list_elem_of_In, in_concat in Hp as (l & Hl & Hp).
  apply list_elem_of_In in Hl, Hp.
  rewrite Forall_forall in Hall. specialize (Hall _ Hl).
  rewrite Forall_forall in Hall. now apply Hall.
Qed.

(** X3: every path [git_local_posts] reports ends in .kp, whatever the
    branches asked for and whatever their diffs hold. *)
Theorem local_posts_end_in_kp (bs : option (list string)) (w w' : World)
    (posts : list string) (p : string) :
  git_local_posts bs w = (Ret posts, w') ->
  p ∈ posts ->
  PyStr.endswith p ".kp" = true.
Proof.
  intros H Hp. apply git_local_posts_kp in H.
  rewrite Forall_forall in H. now apply H.
Qed.

Lemma local_posts_end_in_kp_witness :
  PyStr.endswith "other.kp" ".kp" = true.
Proof.
  apply (local_posts_end_in_kp (Some ["a_fix"]) forked_world forked_world
           ["doc.kp"; "other.kp"] "other.kp").
  - reflexivity.
  - apply list_elem_of_In. simpl. auto.
Defined.

Lemma branches_with_post_non_kp w path bs w' :
  PyStr.endswith path ".kp" = false ->
  branches_with_post path w = (Ret bs, w') -> bs = [].
Proof.
  intros Hk. unfold branches_with_post. intros H.
  destruct (bind_inv_Ret _ _ _ _ _ H) as (local & w1 & _ & H1).
  assert (Hall : Forall (fun _ => False) bs).
  { revert H1. apply for_keep_Ret. intros b wa wb Hb.
    destruct (bind_inv_Ret _ _ _ _ _ Hb) as (posts & wc & Hposts & Hr).
    injection Hr as Hr _. apply bool_decide_eq_true in Hr.
    apply git_local_posts_kp in Hposts. rewrite Forall_forall in Hposts.
    specialize (Hposts _ Hr). congruence. }
  destruct bs as [|b bs]; [reflexivity | now inversion Hall].
Qed.

(** X4: a path that does not end in .kp and is not the name of an unmerged
    branch is never found on a branch through its changes: when the
    resolution returns, it returns master if the path is published and
    None otherwise. *)
Theorem non_post_path_resolution (w w' : World) (path : string)
    (local : list string) (found : option Head) :
  PyStr.endswith path ".kp" = false ->
  fst (git_local_branches w) = Ret local ->
  path ∉ local ->
  git_branch_for_post (Some path) false w = (Ret found, w') ->
  (path ∈ self_dir w /\ found = Some (mkHead "master"))
  \/ ((path ∉ self_dir w) /\ found = None).
Proof.
  intros Hk Hl Hnin. unfold git_branch_for_post.
  rewrite (bind_Ret _ _ w local w).
  2:{ rewrite (read_only_run _ w read_only_git_local_branches). now rewrite Hl. }
  rewrite bool_decide_eq_false_2 by exact Hnin.
  intros H. destruct (bind_inv_Ret _ _ _ _ _ H) as (bs & w1 & Hbs & H1).
  pose proof (read_only_branches_with_post path w) as Hw.
  rewrite Hbs in Hw. simpl in Hw. subst w1.
  apply branches_with_post_non_kp in Hbs; [| exact Hk]. subst bs.
  unfold bind at 1 in H1. unfold ask at 1 in H1.
  destruct (bool_decide (path ∈ self_dir w)) eqn:Hd.
  - apply bool_decide_eq_true in Hd. left. split; [exact Hd |].
    destruct (bind_inv_Ret _ _ _ _ _ H1) as (h & w2 & Hh & H2).
    injection H2 as <- _.
    unfold git_branch, bind, ask in Hh.
    destruct (bool_decide _); [| discriminate]. now injection Hh as <- _.
  - apply bool_decide_eq_false in Hd. right. split; [exact Hd |].
    now injection H1 as <- _.
Qed.

Lemma non_post_path_resolution_witness :
  ("README.md" ∈ self_dir forked_world /\ None = Some (mkHead "master"))
  \/ (("README.md" ∉ self_dir forked_world) /\ @None Head = None).
Proof.
  apply (non_post_path_resolution forked_world forked_world "README.md"
           ["a_fix"; "doc.kp"] None).
  - reflexivity.
  - reflexivity.
  - vm_compute. intros H. apply list_elem_of_In in H. simpl in H.
    intuition discriminate.
  - reflexivity.
Defined.

(* ===================================================================== *)
(** ** The listing of unmerged branches *)
(* ===================================================================== *)










(* ===================================================================== *)
(** ** The remote host *)
(* ===================================================================== *)

Lemma cut_at_found stop before after :
  lacks stop before = true -> lacks "010" before = true ->
  cut_at stop (before +:+ String stop after) = Some (before, after).
Proof.
  induction before as [|a s IH]; str_simpl.
  - intros _ _. now rewrite Ascii.eqb_refl.
  - intros H1 H2. apply andb_true_iff in H1 as [Ha Hs].
    apply andb_true_iff in H2 as [Hn Hs2].
    apply negb_true_iff in Ha, Hn. rewrite Ha, Hn, (IH Hs Hs2). reflexivity.
Qed.

Lemma cut_at_lacks stop s : lacks stop s = true -> cut_at stop s = None.
Proof.
  induction s as [|a s IH]; simpl; [reflexivity |].
  intros H. apply andb_true_iff in H as [Ha Hs].
  apply negb_true_iff in Ha. rewrite Ha, (IH Hs).
  now destruct (Ascii.eqb a "010").
Qed.

(** X7: from a URL of the form user@host:path, on one line, the pattern
    takes the text between the first [@] and the first [:] after it. *)
Theorem match_host_scp_form (user host rest : string) :
  lacks "@" user = true -> lacks "010" user = true ->
  lacks ":" host = true -> lacks "010" host = true ->
  match_host (user +:+ "@" +:+ host +:+ ":" +:+ rest) = Some host.
Proof.
  intros Hu Hun Hh Hhn. unfold match_host.
  change (user +:+ "@" +:+ host +:+ ":" +:+ rest)
    with (user +:+ String "@" (host +:+ String ":" rest)).
  rewrite cut_at_found by assumption.
  now rewrite cut_at_found by assumption.
Qed.

Lemma match_host_scp_form_witness :
  match_host ("git" +:+ "@" +:+ "git.example.com" +:+ ":" +:+ "team/repo.git")
  = Some "git.example.com".
Proof. apply match_host_scp_form; reflexivity. Defined.

(** X8: when origin has no URL, or a URL without [@] (an https URL without
    credentials, a local path), no host is found and the remote is reported
    available without the probe being consulted. *)
Theorem available_without_host (w : World) (r : Remote) :
  Git.remote (self_git w) = Ret r ->
  match remote_url r with
  | Some u => lacks "@" u = true
  | None => True
  end ->
  __remote_available w = (Ret true, w).
Proof.
  intros Hr Hu. unfold __remote_available, __remote_host.
  rewrite (bind_Ret _ _ w None w); [reflexivity |].
  rewrite (bind_Ret _ _ w (remote_url r) w) by now apply remote_uri_of.
  destruct (remote_url r) as [u|] eqn:E; [| reflexivity].
  destruct (String.eqb u ""); [reflexivity |].
  rewrite (bind_Ret _ _ w (Some u) w).
  2:{ rewrite (remote_uri_of w r Hr). now rewrite E. }
  unfold ret, match_host. now rewrite (cut_at_lacks _ _ Hu).
Qed.

Lemma available_without_host_witness :
  __remote_available https_world = (Ret true, https_world).
Proof.
  apply (available_without_host https_world
           (mkRemote "origin" (Some "https://git.example.com/team/repo.git")
                     [("origin/2020/report.kp", 1); ("origin/master", 0)]));
    reflexivity.
Defined.

(* ===================================================================== *)
(** ** submit, when the preconditions hold *)
(* ===================================================================== *)

Lemma remote_push_run w b force r :
  Git.remote (self_git w) = Ret r ->
  remote_push b force w
  = (match push_outcome w b force with
     | PushFails e => Raise e
     | _ => Ret tt
     end,
     match push_outcome w b force with
     | Taken => set_git (Git.push_taken (self_git w) b)
                        (set_pushed (pushed w ++ [(b, force)]) w)
     | _ => set_pushed (pushed w ++ [(b, force)]) w
     end).
Proof.
  intros Hr. unfold remote_push, bind, ask_result, modify, ask, raise, ret.
  rewrite Hr. simpl. now destruct (push_outcome w b force).
Qed.

(** a reference that was put on a commit is found there *)
Lemma find_set_ref n c (l : list (string * commit)) :
  List.find (fun rf => String.eqb (fst rf) n) (Git.set_ref n c l) = Some (n, c).
Proof.
  unfold Git.set_ref. destruct (bool_decide (n ∈ fst <$> l)) eqn:Hin.
  - apply bool_decide_eq_true in Hin. revert Hin.
    induction l as [|[m x] l IH]; simpl; intros Hin.
    + now apply elem_of_nil in Hin.
    + destruct (String.eqb_spec m n) as [->|Hne]; simpl.
      * now rewrite String.eqb_refl.
      * destruct (String.eqb_spec m n) as [|_]; [contradiction |].
        apply IH. apply elem_of_cons in Hin as [Hin|Hin]; [congruence | exact Hin].
  - apply bool_decide_eq_false in Hin. revert Hin.
    induction l as [|[m x] l IH]; simpl; intros Hin.
    + now rewrite String.eqb_refl.
    + destruct (String.eqb_spec m n) as [->|Hne].
      * exfalso. apply Hin. apply list_elem_of_here.
      * apply IH. intros H. apply Hin. now apply list_elem_of_further.
Qed.


(** origin, once it has taken a push *)
Lemma origin_after_push rs r b c :
  List.find (fun r0 => String.eqb (remote_name r0) "origin") rs = Some r ->
  List.find (fun r0 => String.eqb (remote_name r0) "origin") (Git.track rs b c)
  = Some (mkRemote (remote_name r) (remote_url r)
                   (Git.set_ref (remote_name r +:+ "/" +:+ b) c (refs r))).
Proof.
  induction rs as [|r0 rs IH]; simpl; [discriminate |].
  destruct (String.eqb (remote_name r0) "origin") eqn:E; simpl.
  - intros H. injection H as <-. now rewrite E.
  - intros H. rewrite E. now apply IH.
Qed.

(** X9: with a remote configured, a target branch (given, or resolved from
    the path when none is given) and the remote available, [_submit] sends
    exactly one push to origin, for that branch and with the caller's force
    flag, and ends as the push ends: it raises what the push raises, and
    returns otherwise, also when origin refused the push.  When origin takes
    the push the remote-tracking reference of the branch is put on the
    commit of the local branch; the log of pushes and that reference are
    all that changes.  A branch that is given is pushed as it is: the path
    is not resolved. *)
Theorem submit_sends_one_push (w : World) (path branch : option string)
    (force : bool) (b : string) (r : Remote) :
  remotes (self_git w) <> [] ->
  submit_target path branch w = Ret (Some b) ->
  __remote_available w = (Ret true, w) ->
  Git.remote (self_git w) = Ret r ->
  _submit path branch force w
  = (match push_outcome w b force with
     | PushFails e => Raise e
     | _ => Ret tt
     end,
     match push_outcome w b force with
     | Taken => set_git (Git.push_taken (self_git w) b)
                        (set_pushed (pushed w ++ [(b, force)]) w)
     | _ => set_pushed (pushed w ++ [(b, force)]) w
     end)
  /\ (forall c, push_outcome w b force = Taken -> branch_at b c w ->
      exists r',
        Git.remote (self_git (snd (_submit path branch force w))) = Ret r'
        /\ Git.remote_ref r' b = Some (remote_name r +:+ "/" +:+ b, c)
        /\ remote_url r' = remote_url r).
Proof.
  intros Hne Ht Hav Hr.
  assert (Hgo :
    (available <- __remote_available ;;
     if negb available
     then uri <- __remote_uri ;;
          raise (RuntimeError ("Cannot connect to remote repository "
                               +:+ default "None" uri
                               +:+ ". Please check your connection, and then try again."))
     else remote_push b force) w
    = (match push_outcome w b force with
       | PushFails e => Raise e
       | _ => Ret tt
       end,
       match push_outcome w b force with
       | Taken => set_git (Git.push_taken (self_git w) b)
                          (set_pushed (pushed w ++ [(b, force)]) w)
       | _ => set_pushed (pushed w ++ [(b, force)]) w
       end)).
  { rewrite (bind_Ret _ _ w true w Hav). simpl. now apply remote_push_run with r. }
  assert (Hrun : _submit path branch force w
    = (match push_outcome w b force with
       | PushFails e => Raise e
       | _ => Ret tt
       end,
       match push_outcome w b force with
       | Taken => set_git (Git.push_taken (self_git w) b)
                          (set_pushed (pushed w ++ [(b, force)]) w)
       | _ => set_pushed (pushed w ++ [(b, force)]) w
       end)).
  { unfold _submit. unfold bind at 1. simpl.
    rewrite length_remotes_zero by exact Hne.
    unfold submit_target in Ht.
    destruct branch as [b0|].
    - injection Ht as ->.
      destruct path; rewrite (bind_Ret _ _ w (Some b) w) by reflexivity; exact Hgo.
    - destruct path as [p|].
      + destruct (fst (git_branch_for_post (Some p) false w)) as [oh|e] eqn:Hf;
          [| discriminate].
        injection Ht as Ht.
        rewrite (bind_Ret _ _ w (Some b) w); [exact Hgo |].
        rewrite (bind_Ret _ _ w oh w).
        2:{ rewrite (read_only_run _ w (read_only_git_branch_for_post (Some p))).
            now rewrite Hf. }
        unfold ret. now rewrite Ht.
      + discriminate. }
  split; [exact Hrun |].
  intros c Htaken Hat. rewrite Hrun, Htaken. cbn [snd self_git set_git].
  unfold Git.push_taken. unfold branch_at in Hat. rewrite Hat.
  unfold Git.remote in *. cbn [remotes].
  destruct (List.find (fun r0 => String.eqb (remote_name r0) "origin")
                      (remotes (self_git w))) as [r0|] eqn:Hfind; [| discriminate].
  injection Hr as ->.
  rewrite (origin_after_push _ _ b c Hfind).
  eexists. split; [reflexivity |]. split; [| reflexivity].
  unfold Git.remote_ref. cbn [remote_name refs]. apply find_set_ref.
Qed.

(** The draft of [report_world] is at commit 3 and origin's branch at
    commit 1; after the push origin's branch is at commit 3. *)
Lemma submit_sends_one_push_witness :
  _submit (Some "ghost.kp") (Some "2020/report.kp") true report_world
  = (Ret tt,
     set_git (Git.push_taken report_repo "2020/report.kp")
             (set_pushed [("2020/report.kp", true)] report_world))
  /\ exists r',
       Git.remote (self_git (snd (_submit (Some "ghost.kp") (Some "2020/report.kp")
                                          true report_world))) = Ret r'
       /\ Git.remote_ref r' "2020/report.kp" = Some ("origin/2020/report.kp", 3)
       /\ remote_url r' = Some "git@git.example.com:team/repo.git".
Proof.
  assert (Hne : remotes (self_git report_world) <> []) by discriminate.
  pose proof (submit_sends_one_push report_world (Some "ghost.kp")
                (Some "2020/report.kp") true "2020/report.kp"
                (mkRemote "origin" (Some "git@git.example.com:team/repo.git")
                          [("origin/2020/report.kp", 1); ("origin/master", 0)])
                Hne eq_refl eq_refl eq_refl) as [H1 H2].
  split; [exact H1 |].
  exact (H2 3 eq_refl eq_refl).
Defined.

(* ===================================================================== *)
(** ** The revision counter and the reference files *)
(* ===================================================================== *)

(** X10: a REVISION file whose text is not an integer is not taken for 0:
    [_kp_get_revision] raises ValueError, and so does [_kp_new_revision],
    which leaves the file as it is. *)
Theorem corrupt_revision_is_kept (w : World) (path text : string) :
  _kp_read_ref path "REVISION" w = (Ret text, w) ->
  PyStr.int_of_str text = None ->
  exists msg,
    _kp_get_revision path w = (Raise (ValueError msg), w)
    /\ _kp_new_revision path w = (Raise (ValueError msg), w).
Proof.
  intros Hread Hint.
  exists ("invalid literal for int() with base 10: '" +:+ text +:+ "'").
  assert (Hget : _kp_get_revision path w
                 = (Raise (ValueError ("invalid literal for int() with base 10: '"
                                         +:+ text +:+ "'")), w)).
  { rewrite kp_get_revision_cases. unfold _kp_read_ref, ask_result in Hread.
    unfold revision_file.
    destruct (Os.read_file _ _) as [t|e]; [| discriminate].
    injection Hread as ->. now rewrite Hint. }
  split; [exact Hget |].
  unfold _kp_new_revision. now rewrite (bind_Raise _ _ _ _ _ Hget).
Qed.

Lemma corrupt_revision_is_kept_witness :
  exists msg,
    _kp_get_revision "post.kp" conflicted_world
      = (Raise (ValueError msg), conflicted_world)
    /\ _kp_new_revision "post.kp" conflicted_world
      = (Raise (ValueError msg), conflicted_world).
Proof.
  apply (corrupt_revision_is_kept conflicted_world "post.kp" "<<<<<<< HEAD");
    reflexivity.
Defined.

(** X11: [n] calls of [_kp_new_revision] that all return raise the counter
    by exactly [n]. *)
Theorem new_revisions_add (n : nat) (w w' : World) (path : string) (c : Z) :
  _kp_get_revision path w = (Ret c, w) ->
  new_revisions n path w = (Ret tt, w') ->
  _kp_get_revision path w' = (Ret (c + Z.of_nat n)%Z, w').
Proof.
  revert w c. induction n as [|n IH]; intros w c Hget Hrun.
  - simpl in Hrun. injection Hrun as <-. now rewrite Z.add_0_r.
  - cbn [new_revisions] in Hrun.
    destruct (bind_inv_Ret _ _ _ _ _ Hrun) as (v & w1 & Hstep & Hrest).
    destruct (kp_new_revision_step _ _ _ _ Hstep) as (_ & c' & Hget' & _ & Hnext).
    rewrite Hget in Hget'. injection Hget' as <-.
    rewrite (IH w1 (c + 1)%Z Hnext Hrest). do 2 f_equal. lia.
Qed.

Lemma new_revisions_add_witness :
  _kp_get_revision "2020/report.kp"
    (snd (new_revisions 3 "2020/report.kp" report_world))
  = (Ret 3%Z, snd (new_revisions 3 "2020/report.kp" report_world)).
Proof.
  apply (new_revisions_add 3 report_world _ "2020/report.kp" 0); reflexivity.
Defined.

Lemma makedirs_inv f p f' :
  Os.makedirs f p = (Ret tt, f') ->
  cwd f' = cwd f /\ files f' = files f
  /\ forall x, x ∈ dirs f' -> x ∈ dirs f \/ files f !! x = None.
Proof.
  unfold Os.makedirs. cbv zeta.
  remember (Os.ancestors (Os.resolve f p)) as anc eqn:Eanc. clear Eanc.
  destruct (String.eqb p ""); [discriminate |].
  destruct (bool_decide (Os.resolve f p ∈ dirs f)
            || bool_decide (is_Some (files f !! Os.resolve f p))) eqn:E1;
    [discriminate |].
  destruct (existsb _ anc) eqn:E2; [discriminate |].
  intros H. injection H as <-.
  split; [reflexivity |]. split; [reflexivity |].
  intros x Hx. cbn [dirs] in Hx. apply orb_false_iff in E1 as [_ Hq].
  apply bool_decide_eq_false in Hq.
  rewrite !elem_of_union in Hx. destruct Hx as [[Hx|Hx]|Hx].
  - now left.
  - right. rewrite elem_of_list_to_set in Hx. apply list_elem_of_In in Hx.
    destruct (files f !! x) eqn:Ex; [| reflexivity].
    assert (existsb (fun a => bool_decide (is_Some (files f !! a))) anc = true);
      [| congruence].
    apply existsb_exists. exists x. split; [exact Hx |].
    apply bool_decide_eq_true. rewrite Ex. eauto.
  - right. apply elem_of_singleton in Hx. subst x.
    destruct (files f !! Os.resolve f p) eqn:Ex; [| reflexivity].
    exfalso. apply Hq. eauto.
Qed.

Lemma write_file_inv f p data f' :
  Os.write_file f p data = (Ret tt, f') ->
  cwd f' = cwd f /\ dirs f' = dirs f
  /\ files f' = <[ Os.resolve f p := data ]> (files f).
Proof.
  unfold Os.write_file. destruct (String.eqb p ""); [discriminate |].
  destruct (bool_decide _); [discriminate |].
  destruct (negb _); [discriminate |].
  intros H. now injection H as <-.
Qed.

(** what a call of [_kp_write_ref] that returns has done to the disk *)
Lemma kp_write_ref_disk w w1 path reference data v :
  _kp_write_ref path reference data w = (Ret v, w1) ->
  self_path w1 = self_path w
  /\ cwd (fs w1) = cwd (fs w)
  /\ files (fs w1)
     = <[ Os.resolve (fs w) (PosixPath.join3 (self_path w) path reference) := data ]>
         (files (fs w))
  /\ forall x, x ∈ dirs (fs w1) -> x ∈ dirs (fs w) \/ files (fs w) !! x = None.
Proof.
  unfold _kp_write_ref. intros H.
  destruct (bind_inv_Ret _ _ _ _ _ H) as (ref_path & wa & Ha & H1).
  injection Ha as <- <-. cbv zeta in H1.
  destruct (bind_inv_Ret _ _ _ _ _ H1) as (there & wb & Hb & H2).
  injection Hb as _ <-.
  destruct (bind_inv_Ret _ _ _ _ _ H2) as ([] & wc & Hc & H3).
  destruct (bind_inv_Ret _ _ _ _ _ H3) as ([] & wd & Hd & H4).
  injection H4 as _ <-.
  apply on_fs_inv in Hd as [Hw Hp].
  apply write_file_inv in Hw as (Hcwd & Hdirs & Hfiles).
  assert (Hmk : self_path wc = self_path w /\ cwd (fs wc) = cwd (fs w)
                /\ files (fs wc) = files (fs w)
                /\ forall x, x ∈ dirs (fs wc) ->
                             x ∈ dirs (fs w) \/ files (fs w) !! x = None).
  { destruct (negb there).
    - apply on_fs_inv in Hc as [Hm Hpc].
      apply makedirs_inv in Hm as (? & ? & ?). auto.
    - injection Hc as <-. auto. }
  destruct Hmk as (Hpc & Hcc & Hfc & Hdc).
  split; [congruence |]. split; [congruence |]. split.
  - rewrite Hfiles, Hfc. unfold Os.resolve. now rewrite Hcc.
  - intros x Hx. rewrite Hdirs in Hx. now apply Hdc.
Qed.

(** X12: a write to one reference leaves every other file as readable as
    it was, with the same content. *)
Theorem write_ref_keeps_other_files (w w1 : World)
    (path reference data path' reference' data' : string) (v : py_value) :
  _kp_write_ref path reference data w = (Ret v, w1) ->
  Os.resolve (fs w) (PosixPath.join3 (self_path w) path' reference')
    <> Os.resolve (fs w) (PosixPath.join3 (self_path w) path reference) ->
  _kp_read_ref path' reference' w = (Ret data', w) ->
  _kp_read_ref path' reference' w1 = (Ret data', w1).
Proof.
  intros Hw Hne Hread.
  destruct (kp_write_ref_disk _ _ _ _ _ _ Hw) as (Hp & Hcwd & Hfiles & Hdirs).
  unfold _kp_read_ref, ask_result in *. rewrite Hp.
  unfold Os.read_file, Os.resolve in *. rewrite Hcwd, Hfiles.
  destruct (String.eqb _ ""); [discriminate |].
  set (q' := PosixPath.abspath (cwd (fs w))
               (PosixPath.join3 (self_path w) path' reference')) in *.
  destruct (bool_decide (q' ∈ dirs (fs w))) eqn:Ed; [discriminate |].
  destruct (files (fs w) !! q') as [d|] eqn:Ef; [| discriminate].
  injection Hread as ->.
  rewrite bool_decide_eq_false_2.
  - rewrite lookup_insert_ne by (intros E; apply Hne; now rewrite E).
    now rewrite Ef.
  - intros Hin. apply Hdirs in Hin as [Hin|Hin]; [| congruence].
    apply bool_decide_eq_false in Ed. contradiction.
Qed.

Lemma write_ref_keeps_other_files_witness :
  _kp_read_ref "post.kp" "notes.md"
    (snd (_kp_write_ref "post.kp" "REVISION" "7" conflicted_world))
  = (Ret "draft notes",
     snd (_kp_write_ref "post.kp" "REVISION" "7" conflicted_world)).
Proof.
  apply (write_ref_keeps_other_files conflicted_world _ "post.kp" "REVISION" "7"
           "post.kp" "notes.md" "draft notes" PyNone).
  - reflexivity.
  - vm_compute. discriminate.
  - reflexivity.
Defined.

(** X13: a reference that was written is there for [_kp_has_ref]; and where
    [_kp_has_ref] says False, [_kp_read_ref] raises IOError. *)
Theorem has_ref_agrees_with_read (w : World) (path reference : string) :
  (forall w0 data v, _kp_write_ref path reference data w0 = (Ret v, w) ->
     _kp_has_ref path reference w = (Ret true, w))
  /\ (_kp_has_ref path reference w = (Ret false, w) ->
      exists m, _kp_read_ref path reference w = (Raise (IOError m), w)).
Proof.
  split.
  - intros w0 data v Hw.
    destruct (kp_write_ref_inv _ _ _ _ _ _ Hw) as (_ & Hp & Hread).
    unfold _kp_has_ref, ask. rewrite Hp.
    assert (Hf : Os.isfile (fs w) (PosixPath.join3 (self_path w0) path reference)
                 = true); [| now rewrite Hf].
    unfold Os.read_file, Os.isfile in *.
    destruct (String.eqb _ ""); [discriminate |].
    destruct (bool_decide (_ ∈ dirs (fs w))); [discriminate |].
    destruct (files (fs w) !! _) eqn:E; [| discriminate].
    rewrite bool_decide_eq_true_2 by eauto. reflexivity.
  - unfold _kp_has_ref, _kp_read_ref, ask, ask_result. intros H.
    injection H as H. unfold Os.isfile, Os.read_file in *.
    destruct (String.eqb _ ""); [eauto |]. simpl in H.
    apply bool_decide_eq_false in H.
    destruct (bool_decide _); [eauto |].
    destruct (files (fs w) !! _); [| eauto].
    exfalso. apply H. eauto.
Qed.

Lemma has_ref_agrees_with_read_witness :
  _kp_has_ref "post.kp" "REVISION"
    (snd (_kp_write_ref "post.kp" "REVISION" "7" conflicted_world))
  = (Ret true, snd (_kp_write_ref "post.kp" "REVISION" "7" conflicted_world))
  /\ exists m, _kp_read_ref "post.kp" "knowledge.md" conflicted_world
               = (Raise (IOError m), conflicted_world).
Proof.
  split.
  - apply (proj1 (has_ref_agrees_with_read _ "post.kp" "REVISION")
             conflicted_world "7" PyNone).
    reflexivity.
  - apply (proj2 (has_ref_agrees_with_read conflicted_world "post.kp" "knowledge.md")).
    reflexivity.
Defined.

(* ===================================================================== *)
(** ** More on the status *)
(* ===================================================================== *)

(** X14: a call of [_kp_status], however it ends, changes nothing but the
    snapshot cache: it leaves the world [cached w], in which the cache
    holds the snapshot consulted and the repository, the disk, the console
    and the push log are as before; a cache that is set is never replaced. *)
Theorem status_only_fills_cache (w w' : World) (path : string) (detailed : bool)
    (branch : branch_arg) (r : Result status_value) :
  _kp_status path detailed branch w = (r, w') ->
  w' = cached w
  /\ _dir_cache w' = Some (snapshot w)
  /\ self_git w' = self_git w /\ fs w' = fs w
  /\ stdin w' = stdin w /\ stdout w' = stdout w /\ pushed w' = pushed w
  /\ (forall c, _dir_cache w = Some c -> w' = w).
Proof.
  unfold _kp_status. rewrite kp_status_cache_step. intros H.
  assert (Hw : w' = cached w).
  { match type of H with
    | ?m (cached w) = _ =>
        assert (Hro : read_only m) by (destruct branch; read_only_tac)
    end.
    specialize (Hro (cached w)). rewrite H in Hro. exact Hro. }
  subst w'. split; [reflexivity |].
  unfold cached, snapshot. destruct (_dir_cache w) as [c|] eqn:E; simpl.
  - rewrite E. repeat split; try reflexivity.
  - repeat split; try reflexivity. intros c Hc. discriminate.
Qed.

Lemma status_only_fills_cache_witness :
  snd (_kp_status "2020/report.kp" true BNone report_world) = cached report_world
  /\ _dir_cache (snd (_kp_status "2020/report.kp" true BNone report_world))
     = Some ["2019/old.kp"].
Proof.
  destruct (status_only_fills_cache report_world
              (snd (_kp_status "2020/report.kp" true BNone report_world))
              "2020/report.kp" true BNone
              (fst (_kp_status "2020/report.kp" true BNone report_world)))
    as (H1 & H2 & _).
  - now destruct (_kp_status "2020/report.kp" true BNone report_world).
  - split; [exact H1 | exact H2].
Defined.

(** X15: a post outside the snapshot whose branch is not master and has no
    reference of its name on origin is a DRAFT, with no annotation. *)
Theorem draft_status (w : World) (path : string) (detailed : bool) (h : Head)
    (r : Remote) :
  path ∉ snapshot w ->
  fst (git_branch_for_post (Some path) false (cached w)) = Ret (Some h) ->
  name h <> "master" ->
  Git.remote (self_git w) = Ret r ->
  Git.remote_ref r (name h) = None ->
  _kp_status path detailed BNone w
  = (Ret (if detailed then Detailed DRAFT None else Status DRAFT), cached w).
Proof.
  intros Hnin Hf Hm Hr Href.
  rewrite (kp_status_resolved w path detailed (Some h) Hnin Hf).
  destruct (String.eqb_spec (name h) "master") as [E|_]; [contradiction |].
  unfold bind, ask_result, ask, ret.
  rewrite cached_git, Hr, Href. now destruct detailed.
Qed.

(** X16: without a remote called origin the status of a post whose branch
    is not master cannot be told: the call raises the ValueError of
    [repo.remote()], it does not answer DRAFT. *)
Theorem status_needs_origin (w : World) (path : string) (detailed : bool)
    (h : Head) :
  path ∉ snapshot w ->
  fst (git_branch_for_post (Some path) false (cached w)) = Ret (Some h) ->
  name h <> "master" ->
  List.find (fun r => String.eqb (remote_name r) "origin") (remotes (self_git w))
    = None ->
  _kp_status path detailed BNone w
  = (Raise (ValueError "Remote named 'origin' didn't exist"), cached w).
Proof.
  intros Hnin Hf Hm Hr.
  rewrite (kp_status_resolved w path detailed (Some h) Hnin Hf).
  destruct (String.eqb_spec (name h) "master") as [E|_]; [contradiction |].
  unfold bind, ask_result, ask, ret, Git.remote.
  rewrite cached_git, Hr. reflexivity.
Qed.

Lemma status_needs_origin_witness :
  _kp_status "doc.kp" false BNone forked_world
  = (Raise (ValueError "Remote named 'origin' didn't exist"), cached forked_world).
Proof.
  apply (status_needs_origin forked_world "doc.kp" false (mkHead "doc.kp")).
  - vm_compute. intros H. apply list_elem_of_In in H. exact H.
  - reflexivity.
  - discriminate.
  - reflexivity.
Defined.

Lemma draft_status_witness :
  _kp_status "doc.kp" true BNone forked_with_origin
  = (Ret (Detailed DRAFT None), cached forked_with_origin).
Proof.
  apply (draft_status forked_with_origin "doc.kp" true (mkHead "doc.kp")
           (mkRemote "origin" (Some "git@git.example.com:team/repo.git")
                     [("origin/master", 0)])).
  - vm_compute. intros H. apply list_elem_of_In in H. exact H.
  - reflexivity.
  - discriminate.
  - reflexivity.
  - reflexivity.
Defined.

(* ===================================================================== *)
(** ** Checking out *)
(* ===================================================================== *)

Lemma raw_input_until_git {A} prompt (accept : string -> option A) w :
  self_git (snd (raw_input_until prompt accept w)) = self_git w.
Proof.
  unfold raw_input_until.
  now destruct (prompt_until accept (stdin w)) as [r [rest k]].
Qed.

Lemma lookup_ref_app_l {A} n (l l' : list (string * A)) c :
  Git.lookup_ref n l = Some c -> Git.lookup_ref n (l ++ l') = Some c.
Proof.
  unfold Git.lookup_ref. induction l as [|[m x] l IH]; simpl; [discriminate |].
  destruct (String.eqb m n); [trivial | exact IH].
Qed.

Lemma lookup_ref_not_in {A} n (l : list (string * A)) :
  n ∉ fst <$> l -> Git.lookup_ref n l = None.
Proof.
  intros H. destruct (Git.lookup_ref n l) eqn:E; [| reflexivity].
  apply lookup_ref_in in E. contradiction.
Qed.

Lemma lookup_ref_app_r {A} n (l l' : list (string * A)) :
  n ∉ fst <$> l -> Git.lookup_ref n (l ++ l') = Git.lookup_ref n l'.
Proof.
  unfold Git.lookup_ref. induction l as [|[m x] l IH]; simpl; [reflexivity |].
  intros H. destruct (String.eqb_spec m n) as [->|Hne].
  - exfalso. apply H. apply list_elem_of_here.
  - apply IH. intros Hin. apply H. now apply list_elem_of_further.
Qed.

(** creating a branch whose name is free appends it *)
Lemma create_head_fresh g n c :
  n ∉ Git.branch_names g ->
  Git.create_head g n c
  = (Ret (mkHead n),
     mkGit (branches g ++ [(n, c)]) (active_branch g) (remotes g) (parents g)
           (depth g) (merge_base g) (diff_a_paths g) (worktree_after g)).
Proof.
  intros H. unfold Git.create_head, Git.set_ref.
  now rewrite (bool_decide_eq_false_2 _ H).
Qed.

Lemma Head_checkout_branches h w :
  branches (self_git (snd (Head_checkout h w))) = branches (self_git w).
Proof.
  unfold Head_checkout, Git.checkout.
  destruct (Git.lookup_ref (name h) (branches (self_git w))); [| reflexivity].
  now destruct (worktree_after (self_git w) _ (fs w)).
Qed.

Lemma checkout_then_return_branches h w :
  branches (self_git (snd ((Head_checkout h ;;; ret h) w)))
  = branches (self_git w).
Proof.
  unfold bind. pose proof (Head_checkout_branches h w) as H.
  destruct (Head_checkout h w) as [[[]|e] w1]; exact H.
Qed.

Lemma snd_bind_read_only {A B} (m : M A) (k : A -> M B) w :
  read_only m ->
  snd (bind m k w)
  = match fst (m w) with
    | Ret a => snd (k a w)
    | Raise _ => w
    end.
Proof.
  intros H. unfold bind. rewrite (read_only_run m w H).
  now destruct (fst (m w)).
Qed.


Lemma create_head_keeps n c b target w :
  b ∉ Git.branch_names (self_git w) -> branch_at n c w ->
  branch_at n c (snd (git_create_head b target w)).
Proof.
  intros Hb Hn. unfold git_create_head. rewrite create_head_fresh by exact Hb.
  unfold branch_at. simpl. now apply lookup_ref_app_l.
Qed.

(** X17: unless it is asked to reset, [git_checkout] moves no branch that
    exists: whatever the arguments, the answers at the prompt and the way
    the call ends, every branch still points to the commit it pointed to. *)
Theorem checkout_keeps_branches (w : World) (branch : string)
    (soft create : bool) (n : string) (c : commit) :
  branch_at n c w ->
  branch_at n c (snd (git_checkout branch soft false create w)).
Proof.
  intros Hn. unfold git_checkout. destruct create; cbn [negb orb].
  - rewrite snd_bind_read_only by read_only_tac. cbn [fst ask].
    set (active := active_branch (self_git w)).
    unfold bind at 1.
    match goal with
    | |- context [match ?m w with _ => _ end] => set (ask_branch := m)
    end.
    assert (Hg : self_git (snd (ask_branch w)) = self_git w).
    { subst ask_branch. destruct (_ && _ && _); [| reflexivity].
      unfold bind.
      match goal with
      | |- context [raw_input_until ?p accept_yn w] =>
          pose proof (raw_input_until_git p accept_yn w) as Hr;
          destruct (raw_input_until p accept_yn w) as [[yes|e] w1]; exact Hr
      end. }
    destruct (ask_branch w) as [[b|e] w1]; simpl in Hg;
      [| unfold branch_at in *; simpl; now rewrite Hg].
    rewrite snd_bind_read_only by read_only_tac. cbn [fst ask].
    assert (Hw1 : branch_at n c w1) by (unfold branch_at in *; now rewrite Hg).
    unfold bind at 1.
    match goal with
    | |- context [match ?m w1 with _ => _ end] =>
        assert (Hobj : branch_at n c (snd (m w1)));
        [| destruct (m w1) as [[obj|e] w2]; simpl in *; [| exact Hobj];
           unfold branch_at in *;
           rewrite checkout_then_return_branches; exact Hobj]
    end.
    destruct (bool_decide (b ∈ Git.branch_names (self_git w1))) eqn:Hb; cbn [negb].
    + now rewrite (read_only_git_branch (BName b) w1).
    + apply bool_decide_eq_false in Hb.
      rewrite snd_bind_read_only by read_only_tac. cbn [fst ask].
      rewrite snd_bind_read_only by read_only_tac.
      match goal with
      | |- context [match fst ?x with _ => _ end] =>
          destruct (fst x) as [ref_head|e]; [| exact Hw1]
      end.
      rewrite snd_bind_read_only by read_only_tac.
      match goal with
      | |- context [match fst ?x with _ => _ end] =>
          destruct (fst x) as [target|e]; [| exact Hw1]
      end.
      now apply create_head_keeps.
  - unfold bind at 1.
    rewrite (read_only_run _ w (read_only_git_branch (BName branch))).
    destruct (fst (git_branch (BName branch) w)) as [h|e]; simpl; [| exact Hn].
    unfold branch_at in *. now rewrite checkout_then_return_branches.
Qed.

(** Creating the branch [new/post.kp] leaves master where it was. *)
Lemma checkout_keeps_branches_witness :
  branch_at "master" 0
    (snd (git_checkout "new/post.kp" true false true untracked_world)).
Proof.
  apply (checkout_keeps_branches untracked_world "new/post.kp" true true "master" 0).
  reflexivity.
Defined.

(** X18: a branch that [git_checkout] returns exists and is the one checked
    out; without [create] it is the branch asked for, which existed
    already. *)
Theorem checkout_returns_active_branch (w w1 : World) (branch : string)
    (soft reset create : bool) (h : Head) :
  git_checkout branch soft reset create w = (Ret h, w1) ->
  active_branch (self_git w1) = name h
  /\ name h ∈ Git.branch_names (self_git w1)
  /\ (create = false ->
      h = mkHead branch /\ branch ∈ Git.branch_names (self_git w)).
Proof.
  intros H. destruct (git_checkout_post _ _ _ _ _ _ _ H) as [Ha He].
  split; [exact Ha |]. split; [exact He |].
  intros ->. unfold git_checkout in H. cbn [negb] in H.
  destruct (bind_inv_Ret _ _ _ _ _ H) as (obj & wa & Hobj & H1).
  destruct (bind_inv_Ret _ _ _ _ _ H1) as ([] & wb & _ & H2).
  injection H2 as -> _.
  unfold git_branch, bind, ask in Hobj.
  destruct (bool_decide _) eqn:Hb; [| discriminate].
  injection Hobj as <- _. split; [reflexivity |].
  now apply bool_decide_eq_true in Hb.
Qed.

(** The branch [a_fix] checked out by name; and master, which is checked
    out, reset and checked out again. *)
Lemma checkout_returns_active_branch_witness :
  active_branch (self_git (snd (git_checkout "a_fix" false false false forked_world)))
  = "a_fix"
  /\ active_branch (self_git (snd (git_checkout "master" false true true forked_world)))
     = "master".
Proof.
  split.
  - destruct (checkout_returns_active_branch forked_world
                (snd (git_checkout "a_fix" false false false forked_world))
                "a_fix" false false false (mkHead "a_fix") eq_refl) as (H & _).
    exact H.
  - destruct (checkout_returns_active_branch forked_world
                (snd (git_checkout "master" false true true forked_world))
                "master" false true true (mkHead "master") eq_refl) as (H & _).
    exact H.
Defined.

(** X19: without [create], a name that is no branch makes [git_checkout]
    raise the ValueError of [git_branch], naming it; nothing is checked out
    and nothing is created. *)
Theorem checkout_missing_branch (w : World) (branch : string) (soft reset : bool) :
  branch ∉ Git.branch_names (self_git w) ->
  git_checkout branch soft reset false w
  = (Raise (ValueError ("Specified branch `" +:+ branch +:+ "` does not exist.")), w).
Proof.
  intros H. unfold git_checkout. cbn [negb].
  rewrite (bind_Raise _ _ w
             (ValueError ("Specified branch `" +:+ branch +:+ "` does not exist.")) w);
    [reflexivity |].
  unfold git_branch, bind, ask. now rewrite (bool_decide_eq_false_2 _ H).
Qed.

Lemma checkout_missing_branch_witness :
  git_checkout "ghost.kp" false false false forked_world
  = (Raise (ValueError "Specified branch `ghost.kp` does not exist."), forked_world).
Proof.
  apply (checkout_missing_branch forked_world "ghost.kp" false false).
  vm_compute. intros H. apply list_elem_of_In in H. simpl in H.
  intuition discriminate.
Defined.







(* ===================================================================== *)
(** ** The add workflow *)
(* ===================================================================== *)

(** X21: [_add_prepare] returns when the checkout returns and either
    [update] is set or nothing is at the target once the branch is checked
    out; the world is then the one the checkout left. *)
Theorem prepare_succeeds (w w1 : World) (path : string) (update : bool)
    (branch : option string) (squash : bool) (h : Head) :
  git_checkout (py_or branch path) true squash true w = (Ret h, w1) ->
  update = true
  \/ Os.exists_ (fs w1)
       (PosixPath.abspath (cwd (fs w)) (PosixPath.join (self_path w) path)) = false ->
  _add_prepare path update branch squash w = (Ret tt, w1).
Proof.
  intros Hco Hok. unfold _add_prepare. unfold bind at 1. unfold ask at 1.
  rewrite (bind_Ret _ _ w h w1 Hco). unfold bind, ask.
  destruct Hok as [-> | ->]; [reflexivity |]. now rewrite orb_true_r.
Qed.

(** An update on a new branch; and an update squashed onto master, which
    is checked out and is reset. *)
Lemma prepare_succeeds_witness :
  _add_prepare "new/post.kp" true None false untracked_world
  = (Ret tt, snd (git_checkout "new/post.kp" true false true untracked_world))
  /\ _add_prepare "new/post.kp" true (Some "master") true untracked_world
     = (Ret tt, snd (git_checkout "master" true true true untracked_world)).
Proof.
  split.
  - apply (prepare_succeeds untracked_world _ "new/post.kp" true None false
             (mkHead "new/post.kp")).
    + vm_compute. reflexivity.
    + left. reflexivity.
  - apply (prepare_succeeds untracked_world _ "new/post.kp" true (Some "master") true
             (mkHead "master")).
    + vm_compute. reflexivity.
    + left. reflexivity.
Defined.

(** X22: once the path is staged, [_add_cleanup] ends as the commit ends.
    When the commit returns nothing is rolled back.  When it raises and the
    index reset returns, the exception that leaves is the commit's, whatever
    the clean and the checkout of the path do; the reset itself is not
    guarded, and when it raises its exception is the one that leaves. *)
Theorem cleanup_commit_outcomes (ops : Staging) (path message : string)
    (w w1 : World) :
  add_paths ops path w = (Ret tt, w1) ->
  (forall w2, commit_message ops message w1 = (Ret tt, w2) ->
     _add_cleanup ops path (Some message) w = (Ret tt, w2))
  /\ (forall e w2 w3,
        commit_message ops message w1 = (Raise e, w2) ->
        reset_index ops w2 = (Ret tt, w3) ->
        _add_cleanup ops path (Some message) w
        = (Raise e, snd ((clean_path ops path ;;; checkout_path ops path) w3)))
  /\ (forall e e' w2 w3,
        commit_message ops message w1 = (Raise e, w2) ->
        reset_index ops w2 = (Raise e', w3) ->
        _add_cleanup ops path (Some message) w = (Raise e', w3)).
Proof.
  intros Hadd. unfold _add_cleanup. rewrite (bind_Ret _ _ w tt w1 Hadd).
  assert (Hbody : forall r w2,
            commit_message ops message w1 = (r, w2) ->
            (message0 <- ret message ;; commit_message ops message0) w1 = (r, w2)).
  { intros r w2 Hc. now rewrite (bind_Ret _ _ w1 message w1) by reflexivity. }
  split; [| split].
  - intros w2 Hc. unfold try_except. now rewrite (Hbody _ _ Hc).
  - intros e w2 w3 Hc Hr. unfold try_except at 1. rewrite (Hbody _ _ Hc).
    rewrite (bind_Ret _ _ w2 tt w3 Hr).
    unfold bind at 1. unfold try_except.
    now destruct ((clean_path ops path ;;; checkout_path ops path) w3) as [[[]|e0] w4].
  - intros e e' w2 w3 Hc Hr. unfold try_except at 1. rewrite (Hbody _ _ Hc).
    now rewrite (bind_Raise _ _ w2 e' w3 Hr).
Qed.

Lemma cleanup_commit_outcomes_witness :
  _add_cleanup failing_commit "new/post.kp" (Some "Add post") report_world
  = (Raise (GitCommandError "commit failed"), report_world).
Proof.
  apply (proj1 (proj2 (cleanup_commit_outcomes failing_commit "new/post.kp"
                         "Add post" report_world report_world eq_refl))
           (GitCommandError "commit failed") report_world report_world);
    reflexivity.
Defined.

(** X23: with no message given and the input at its end, the prompt is
    printed, raw_input raises EOFError and the commit is never attempted:
    the roll-back runs, and EOFError leaves when the reset returns. *)
Theorem cleanup_without_message_at_eof (ops : Staging) (path : string)
    (w w1 w3 : World) :
  add_paths ops path w = (Ret tt, w1) ->
  stdin w1 = [] ->
  reset_index ops
    (set_stdout (stdout w1 ++ ["Please enter a commit message for this post: "]) w1)
  = (Ret tt, w3) ->
  _add_cleanup ops path None w
  = (Raise EOFError, snd ((clean_path ops path ;;; checkout_path ops path) w3))
  /\ forall other_commit,
       _add_cleanup (mkStaging (add_paths ops) other_commit (reset_index ops)
                               (clean_path ops) (checkout_path ops)) path None w
       = _add_cleanup ops path None w.
Proof.
  intros Hadd Hin Hr.
  assert (Hgen : forall commit,
    _add_cleanup (mkStaging (add_paths ops) commit (reset_index ops)
                            (clean_path ops) (checkout_path ops)) path None w
    = (Raise EOFError, snd ((clean_path ops path ;;; checkout_path ops path) w3))).
  { intros commit. unfold _add_cleanup. cbn [add_paths commit_message reset_index
                                             clean_path checkout_path].
    rewrite (bind_Ret _ _ w tt w1 Hadd).
    unfold try_except at 1.
    rewrite (bind_Raise _ _ w1 EOFError
               (set_stdout (stdout w1 ++ ["Please enter a commit message for this post: "]) w1)).
    2:{ unfold raw_input. now rewrite Hin. }
    rewrite (bind_Ret _ _ _ tt w3 Hr).
    unfold bind at 1. unfold try_except.
    now destruct ((clean_path ops path ;;; checkout_path ops path) w3) as [[[]|e0] w4]. }
  split.
  - rewrite <- (Hgen (commit_message ops)). now destruct ops.
  - intros other. rewrite (Hgen other). rewrite <- (Hgen (commit_message ops)).
    now destruct ops.
Qed.

Lemma cleanup_without_message_at_eof_witness :
  _add_cleanup failing_commit "new/post.kp" None report_world
  = (Raise EOFError,
     set_stdout ["Please enter a commit message for this post: "] report_world).
Proof.
  apply (proj1 (cleanup_without_message_at_eof failing_commit "new/post.kp"
                  report_world report_world
                  (set_stdout ["Please enter a commit message for this post: "]
                              report_world)
                  eq_refl eq_refl eq_refl)).
Defined.

(* ===================================================================== *)
(** ** Switching drafts and updating *)
(* ===================================================================== *)

(** X24: [set_active_draft] on a path that resolves to no branch raises
    AttributeError and changes nothing; when it returns, the branch the
    path resolves to is the one checked out, and no branch was created or
    moved. *)
Theorem set_active_draft_outcomes (w : World) (path : option string) :
  (fst (git_branch_for_post path false w) = Ret None ->
     set_active_draft path w
     = (Raise (AttributeError "'NoneType' object has no attribute 'checkout'"), w))
  /\ (forall w', set_active_draft path w = (Ret tt, w') ->
        exists h,
          fst (git_branch_for_post path false w) = Ret (Some h)
          /\ active_branch (self_git w') = name h
          /\ branches (self_git w') = branches (self_git w)).
Proof.
  unfold set_active_draft. split.
  - intros H. rewrite (bind_Ret _ _ w None w); [reflexivity |].
    rewrite (read_only_run _ w (read_only_git_branch_for_post path)).
    now rewrite H.
  - intros w' H.
    destruct (bind_inv_Ret _ _ _ _ _ H) as (found & w1 & Hf & Hco).
    pose proof (read_only_git_branch_for_post path w) as Hw.
    rewrite Hf in Hw. simpl in Hw. subst w1.
    destruct found as [h|]; [| discriminate].
    exists h. split; [now rewrite Hf |].
    split; [exact (proj1 (Head_checkout_post _ _ _ Hco)) |].
    pose proof (Head_checkout_branches h w) as Hb. now rewrite Hco in Hb.
Qed.

Lemma set_active_draft_outcomes_witness :
  set_active_draft (Some "ghost.kp") forked_world
  = (Raise (AttributeError "'NoneType' object has no attribute 'checkout'"),
     forked_world)
  /\ exists h,
       fst (git_branch_for_post (Some "other.kp") false forked_world) = Ret (Some h)
       /\ active_branch
            (self_git (snd (set_active_draft (Some "other.kp") forked_world)))
          = name h
       /\ branches (self_git (snd (set_active_draft (Some "other.kp") forked_world)))
          = branches (self_git forked_world).
Proof.
  split.
  - apply (proj1 (set_active_draft_outcomes forked_world (Some "ghost.kp"))).
    reflexivity.
  - apply (proj2 (set_active_draft_outcomes forked_world (Some "other.kp"))).
    reflexivity.
Defined.

Lemma remote_available_host w av :
  __remote_available w = (Ret av, w) -> exists host, __remote_host w = (Ret host, w).
Proof.
  unfold __remote_available. intros H.
  destruct (bind_inv_Ret _ _ _ _ _ H) as (host & w1 & Hh & _).
  pose proof (read_only_remote_host w) as Hw. rewrite Hh in Hw. simpl in Hw.
  subst w1. now exists host.
Qed.

(** X25: with no remote configured, or with the remote host not answering
    the probe, [update] returns at once: nothing is fetched, pulled or
    checked out. *)
Theorem update_offline_is_noop (net : Network) (branch : string) (w : World) :
  remotes (self_git w) = [] \/ __remote_available w = (Ret false, w) ->
  update net branch w = (Ret tt, w).
Proof.
  intros H. unfold update. unfold bind at 1. unfold ask at 1.
  destruct (length (remotes (self_git w)) =? 0)%nat eqn:E; [reflexivity |].
  destruct H as [H|H]; [now rewrite H in E |].
  rewrite (bind_Ret _ _ w false w H). cbn [negb].
  destruct (remote_available_host _ _ H) as [host Hh].
  now rewrite (bind_Ret _ _ w host w Hh).
Qed.

Lemma update_offline_is_noop_witness :
  update quiet_network "master" offline_world = (Ret tt, offline_world).
Proof.
  apply (update_offline_is_noop quiet_network "master" offline_world).
  right. reflexivity.
Defined.

(** X26: when the fetch does not move HEAD, an [update] that returns has
    put back the branch that was checked out before it. *)
Theorem update_restores_branch (net : Network) (branch : string) (w w' : World) :
  (forall w0, active_branch (self_git (snd (fetch net w0)))
              = active_branch (self_git w0)) ->
  update net branch w = (Ret tt, w') ->
  active_branch (self_git w') = active_branch (self_git w).
Proof.
  intros Hfetch. unfold update. unfold bind at 1. unfold ask at 1.
  destruct (length (remotes (self_git w)) =? 0)%nat.
  { intros H. now injection H as <-. }
  intros H. destruct (bind_inv_Ret _ _ _ _ _ H) as (av & w1 & Hav & H1).
  pose proof (read_only_remote_available w) as Hw. rewrite Hav in Hw.
  simpl in Hw. subst w1. destruct av; cbn [negb] in H1.
  - destruct (bind_inv_Ret _ _ _ _ _ H1) as (r & wa & Hr & H2).
    assert (wa = w) by (unfold ask_result in Hr; now injection Hr as _ <-). subst wa.
    destruct (bind_inv_Ret _ _ _ _ _ H2) as ([] & w2 & Hf & H3).
    destruct (bind_inv_Ret _ _ _ _ _ H3) as (current & wb & Hc & H4).
    unfold ask in Hc. injection Hc as <- <-.
    destruct (bind_inv_Ret _ _ _ _ _ H4) as (bs & wc & _ & H5).
    destruct (bind_inv_Ret _ _ _ _ _ H5) as (master & wd & _ & H6).
    destruct (bind_inv_Ret _ _ _ _ _ H6) as ([] & w3 & _ & H7).
    destruct (bind_inv_Ret _ _ _ _ _ H7) as (r2 & we & _ & H8).
    destruct (bind_inv_Ret _ _ _ _ _ H8) as ([] & w4 & _ & H9).
    destruct (bind_inv_Ret _ _ _ _ _ H9) as (nsub & wf & _ & H10).
    destruct (bind_inv_Ret _ _ _ _ _ H10) as ([] & w5 & _ & H11).
    destruct (Head_checkout_post _ _ _ H11) as [Hact _].
    rewrite Hact. simpl. specialize (Hfetch w). now rewrite Hf in Hfetch.
  - destruct (bind_inv_Ret _ _ _ _ _ H1) as (host & wa & Hh & H2).
    pose proof (read_only_remote_host w) as Hw. rewrite Hh in Hw. simpl in Hw.
    subst wa. now injection H2 as <-.
Qed.

Lemma update_restores_branch_witness :
  active_branch (self_git (snd (update quiet_network "master" report_world)))
  = active_branch (self_git report_world).
Proof.
  apply (update_restores_branch quiet_network "master" report_world
           (snd (update quiet_network "master" report_world))).
  - intros w0. reflexivity.
  - vm_compute. reflexivity.
Defined.

(* ===================================================================== *)
(** ** Opening the repository *)
(* ===================================================================== *)

(** X27: a path that exists is opened as it is: the bootstrap is not run,
    whatever [auto_create] says, and the disk is not touched; self.path
    becomes the absolute path when git takes the directory for a
    repository, and the assertion fails otherwise. *)
Theorem path_setter_existing (env : Bootstrap) (expanduser : string -> string)
    (valid_repo : FS -> string -> bool) (auto_create : bool) (path : string)
    (w : World) :
  Os.exists_ (fs w) (PosixPath.abspath (cwd (fs w)) (expanduser path)) = true ->
  path_setter env expanduser valid_repo auto_create path w
  = if valid_repo (fs w) (PosixPath.abspath (cwd (fs w)) (expanduser path))
    then (Ret tt, set_self_path (PosixPath.abspath (cwd (fs w)) (expanduser path)) w)
    else (Raise (AssertionError
                   ("Provided path '"
                    +:+ PosixPath.abspath (cwd (fs w)) (expanduser path)
                    +:+ "' is not a valid repository.")), w).
Proof.
  intros H. unfold path_setter, bind, ask, modify, raise, ret.
  rewrite H. cbn [negb].
  now destruct (valid_repo (fs w) _).
Qed.

Lemma path_setter_existing_witness :
  path_setter commit_fails (fun p => p) (fun _ _ => true) true "/repo/../repo"
              report_world
  = (Ret tt, set_self_path "/repo" report_world).
Proof.
  assert (He : Os.exists_ (fs report_world)
                 (PosixPath.abspath (cwd (fs report_world)) "/repo/../repo") = true)
    by (vm_compute; reflexivity).
  pose proof (path_setter_existing commit_fails (fun p => p) (fun _ _ => true) true
                "/repo/../repo" report_world He) as E.
  cbv beta iota in E. rewrite E. vm_compute. reflexivity.
Defined.

Lemma on_fs_self_path step w : self_path (snd (on_fs step w)) = self_path w.
Proof. unfold on_fs. now destruct (step (fs w)). Qed.

Lemma bind_self_path {A B} (m : M A) (k : A -> M B) :
  (forall w, self_path (snd (m w)) = self_path w) ->
  (forall a w, self_path (snd (k a w)) = self_path w) ->
  forall w, self_path (snd (bind m k w)) = self_path w.
Proof.
  intros Hm Hk w. unfold bind. specialize (Hm w).
  destruct (m w) as [[a|e] w1]; simpl in *; [| exact Hm].
  now rewrite Hk.
Qed.

(** the bootstrap and its cleanup work on the disk only *)
Lemma repo_init_self_path env path w :
  self_path (snd (__repo_init env path w)) = self_path w.
Proof.
  unfold __repo_init, try_except.
  assert (Hbody : self_path (snd (__repo_init_body env path w)) = self_path w).
  { unfold __repo_init_body.
    repeat (apply bind_self_path; [intros; apply on_fs_self_path | intros ? ?]).
    apply on_fs_self_path. }
  destruct (__repo_init_body env path w) as [[[]|e] w1]; simpl in *; [exact Hbody |].
  rewrite <- Hbody.
  apply (bind_self_path (on_fs (fun f => Os.rmtree f path)) (fun _ => raise e)).
  - intros. apply on_fs_self_path.
  - reflexivity.
Qed.

(** X28: a path that does not exist is not opened.  Without [auto_create]
    the setter raises ValueError and changes nothing; with it the bootstrap
    runs on the absolute path, and when the bootstrap raises, the setter
    raises the same exception and self.path stays as it was. *)
Theorem path_setter_missing (env : Bootstrap) (expanduser : string -> string)
    (valid_repo : FS -> string -> bool) (auto_create : bool) (path : string)
    (w : World) :
  Os.exists_ (fs w) (PosixPath.abspath (cwd (fs w)) (expanduser path)) = false ->
  (auto_create = false ->
     path_setter env expanduser valid_repo auto_create path w
     = (Raise (ValueError
                 ("Provided path '"
                  +:+ PosixPath.abspath (cwd (fs w))
                        (PosixPath.abspath (cwd (fs w)) (expanduser path))
                  +:+ "' does not exist.")), w))
  /\ (auto_create = true ->
      forall e w1,
        __repo_init env (PosixPath.abspath (cwd (fs w))
                           (PosixPath.abspath (cwd (fs w)) (expanduser path))) w
        = (Raise e, w1) ->
        path_setter env expanduser valid_repo auto_create path w = (Raise e, w1)
        /\ self_path w1 = self_path w).
Proof.
  intros H. split.
  - intros ->. unfold path_setter, bind, ask, modify, raise, ret.
    rewrite H. reflexivity.
  - intros -> e w1 Hinit. split.
    + unfold path_setter. unfold bind at 1. unfold ask at 1.
      unfold bind at 1. unfold ask at 1. rewrite H. cbn [negb].
      unfold bind at 1. unfold bind at 1. unfold ask at 1.
      unfold bind at 1. now rewrite Hinit.
    + pose proof (repo_init_self_path env
                    (PosixPath.abspath (cwd (fs w))
                       (PosixPath.abspath (cwd (fs w)) (expanduser path))) w) as Hp.
      now rewrite Hinit in Hp.
Qed.

Lemma path_setter_missing_witness :
  path_setter commit_fails (fun p => p) (fun _ _ => true) false "kb" bare_world
  = (Raise (ValueError "Provided path '/srv/kb' does not exist."), bare_world)
  /\ fst (path_setter commit_fails (fun p => p) (fun _ _ => true) true "kb" bare_world)
     = Raise (GitCommandError "commit failed").
Proof.
  assert (He : Os.exists_ (fs bare_world)
                 (PosixPath.abspath (cwd (fs bare_world)) "kb") = false)
    by (vm_compute; reflexivity).
  split.
  - rewrite (proj1 (path_setter_missing commit_fails (fun p => p) (fun _ _ => true)
                      false "kb" bare_world He) eq_refl).
    vm_compute. reflexivity.
  - assert (Hi : __repo_init commit_fails
                   (PosixPath.abspath (cwd (fs bare_world))
                      (PosixPath.abspath (cwd (fs bare_world)) "kb")) bare_world
                 = (Raise (GitCommandError "commit failed"),
                    snd (__repo_init commit_fails "/srv/kb" bare_world)))
      by (vm_compute; reflexivity).
    destruct (proj2 (path_setter_missing commit_fails (fun p => p) (fun _ _ => true)
                       true "kb" bare_world He) eq_refl _ _ Hi) as [H _].
    rewrite H. reflexivity.
Defined.
